(** * AChangeLogger: a shallow embedding of [changelogup.py]

    The development follows the class [AutoChangelogger]: the Python string
    and [re] primitives the class relies on, the [datetime] values it
    compares, the pull-request records it reads, and then its four methods
    [get_merged_prs], [categorize_pr], [format_changelog_entry] and
    [update_changelog].

    Modelling conventions.
    - Python [str] is [string]; input text (documents, titles, bodies,
      labels) is read as ASCII, so that a character is one [ascii].  The
      category headers keep the UTF-8 bytes of their emoji.
    - [datetime] values are naive and compare field by field, as the
      results of [strptime] do.
    - Exceptions are values of [exn], carried by the [result] monad.
    - The changelog file is an [option string]: [None] when the path does
      not exist, [Some content] otherwise.
    - [datetime.now().strftime('%Y-%m-%d')] and the list returned by
      [repo.get_pulls(...)] are inputs of [update_changelog]. *)

From Stdlib Require Import ZArith Strings.String Strings.Ascii.
From Stdlib Require Import Numbers.DecimalString List Lia.
From stdpp Require Import gmap strings list fin_maps.

Local Open Scope Z_scope.

(* stdpp freezes [append] under [simpl]; the proofs below compute with it. *)
#[local] Arguments String.append !s1 s2 : simpl nomatch.

(** ** Exceptions and the error monad *)

Inductive exn : Type :=
| ValueError      (* datetime.strptime on text that is not a date *)
| AttributeError. (* [.group] on a failed match *)

Inductive result (A : Type) : Type :=
| Ok (a : A)
| Raise (e : exn).
Arguments Ok {A} a.
Arguments Raise {A} e.

Definition bind {A B : Type} (m : result A) (k : A -> result B) : result B :=
  match m with
  | Ok a => k a
  | Raise e => Raise e
  end.

Notation "'do' x <- m ; k" := (bind m (fun x => k))
  (at level 10, x name, m at level 100, k at level 200).

(** ** Python string primitives *)

Module Str.

Definition nl_char : ascii := ascii_of_nat 10.

(** The one-character string "\n". *)
Definition nl : string := String nl_char "".

(** [str.lower()] on one character. *)
Definition lower_char (c : ascii) : ascii :=
  let n := N_of_ascii c in
  if ((65 <=? n) && (n <=? 90))%N then ascii_of_N (n + 32) else c.

Fixpoint lower (s : string) : string :=
  match s with
  | EmptyString => EmptyString
  | String c s' => String (lower_char c) (lower s')
  end.

(** [needle in hay]. *)
Fixpoint contains (needle hay : string) : bool :=
  if String.prefix needle hay then true
  else match hay with
       | EmptyString => false
       | String _ hay' => contains needle hay'
       end.

(** Lowest index at which [needle] occurs in [hay]. *)
Fixpoint index_of (needle hay : string) : option nat :=
  if String.prefix needle hay then Some O
  else match hay with
       | EmptyString => None
       | String _ hay' => option_map S (index_of needle hay')
       end.

(** [hay.find(needle)]: the lowest index, or -1. *)
Definition find (hay needle : string) : Z :=
  match index_of needle hay with
  | Some i => Z.of_nat i
  | None => -1
  end.

Fixpoint take (n : nat) (s : string) : string :=
  match n, s with
  | S n', String c s' => String c (take n' s')
  | _, _ => EmptyString
  end.

Fixpoint drop (n : nat) (s : string) : string :=
  match n, s with
  | S n', String _ s' => drop n' s'
  | _, _ => s
  end.

(** A slice bound as Python normalises it: negative bounds count from the
    end, and everything is clamped to [0, len]. *)
Definition clamp (s : string) (k : Z) : nat :=
  let len := Z.of_nat (String.length s) in
  Z.to_nat (if k <? 0 then Z.max 0 (len + k) else Z.min k len).

(** [s[:k]] and [s[k:]]. *)
Definition slice_to (s : string) (k : Z) : string := take (clamp s k) s.
Definition slice_from (s : string) (k : Z) : string := drop (clamp s k) s.

(** [s.split(sep)] for a one-character separator: never empty. *)
Fixpoint split (sep : ascii) (s : string) : list string :=
  match s with
  | EmptyString => [EmptyString]
  | String c s' =>
      if Ascii.eqb c sep then EmptyString :: split sep s'
      else match split sep s' with
           | [] => [String c EmptyString]
           | w :: ws => String c w :: ws
           end
  end.

(** [str(n)] / [f"{n}"] for an int. *)
Definition of_int (n : Z) : string := NilZero.string_of_int (Z.to_int n).

Fixpoint concat (l : list string) : string :=
  match l with
  | [] => EmptyString
  | s :: l' => s +:+ concat l'
  end.

End Str.

(** ** The regular expressions of the module *)

Module Re.

Definition is_digit (c : ascii) : bool :=
  let n := N_of_ascii c in ((48 <=? n) && (n <=? 57))%N.

(** [\w]: letters, digits and the underscore. *)
Definition is_word (c : ascii) : bool :=
  let n := N_of_ascii c in
  (((48 <=? n) && (n <=? 57)) || ((65 <=? n) && (n <=? 90))
   || ((97 <=? n) && (n <=? 122)) || (n =? 95))%N.

(** [.]: anything but a newline. *)
Definition is_dot (c : ascii) : bool := negb (Ascii.eqb c Str.nl_char).

(** *** [\d{4}-\d{2}-\d{2}] *)

(** A match of the date pattern at the start of [s]. *)
Definition date_at (s : string) : option string :=
  match s with
  | String y1 (String y2 (String y3 (String y4 (String h1
    (String m1 (String m2 (String h2 (String d1 (String d2 _))))))))) =>
      if is_digit y1 && is_digit y2 && is_digit y3 && is_digit y4
         && Ascii.eqb h1 "-" && is_digit m1 && is_digit m2
         && Ascii.eqb h2 "-" && is_digit d1 && is_digit d2
      then Some (Str.take 10 s)
      else None
  | _ => None
  end.

(** [re.findall(date_pattern, s)]: the matches from left to right, none
    overlapping; [skip] counts the characters of the current match that are
    still to be passed over. *)
Fixpoint findall_dates_from (skip : nat) (s : string) : list string :=
  match s with
  | EmptyString => []
  | String _ s' =>
      match skip with
      | S k => findall_dates_from k s'
      | O =>
          match date_at s with
          | Some d => d :: findall_dates_from 9 s'
          | None => findall_dates_from 0 s'
          end
      end
  end.

Definition findall_dates (s : string) : list string := findall_dates_from 0 s.

(** *** [^(feat|fix|docs|refactor|test|chore|breaking)(\(.+\))?: .+] *)

Definition commit_types : list string :=
  ["feat"; "fix"; "docs"; "refactor"; "test"; "chore"; "breaking"]%string.

(** [: .+] *)
Definition description_at (s : string) : bool :=
  match s with
  | String c1 (String c2 (String c3 _)) =>
      Ascii.eqb c1 ":" && Ascii.eqb c2 " " && is_dot c3
  | _ => false
  end.

(** The rest of [.+\): .+] once [.+] has taken at least one character:
    either the scope closes here and the description follows, or [.+]
    takes one more character. *)
Fixpoint scope_rest (s : string) : bool :=
  match s with
  | EmptyString => false
  | String c s' =>
      (Ascii.eqb c ")" && description_at s') || (is_dot c && scope_rest s')
  end.

(** [\(.+\): .+] *)
Definition scope_at (s : string) : bool :=
  match s with
  | String c1 (String c2 s') => Ascii.eqb c1 "(" && is_dot c2 && scope_rest s'
  | _ => false
  end.

(** [(\(.+\))?: .+]: the optional group is tried first, then skipped. *)
Definition after_type (s : string) : bool := scope_at s || description_at s.

(** [re.match(conventional_commit_pattern, title)] found a match. *)
Definition conventional_commit (title : string) : bool :=
  existsb (fun t => String.prefix t title
                    && after_type (Str.drop (String.length t) title))
          commit_types.

(** *** [^(\w+)] *)

Fixpoint word_run (s : string) : string :=
  match s with
  | String c s' => if is_word c then String c (word_run s') else EmptyString
  | EmptyString => EmptyString
  end.

(** [re.match(r'^(\w+)', s)]: group 1 of the match, if there is one. *)
Definition leading_word (s : string) : option string :=
  match word_run s with
  | EmptyString => None
  | w => Some w
  end.

(** *** [\[([^\]]+)\]\([^)]+\)] *)

(** The longest prefix of [s] free of [stop]: what a greedy [[^stop]*]
    takes, with nothing to give back, since the next character, if any, is
    [stop]. *)
Fixpoint run_until (stop : ascii) (s : string) : string :=
  match s with
  | String c s' =>
      if Ascii.eqb c stop then EmptyString else String c (run_until stop s')
  | EmptyString => EmptyString
  end.

(** A match of the link pattern at the start of [s]: group 1 and the
    length of the whole match. *)
Definition link_at (s : string) : option (string * nat) :=
  match s with
  | String c s1 =>
      if Ascii.eqb c "[" then
        let text := run_until "]" s1 in
        let n := String.length text in
        match n, Str.drop n s1 with
        | S _, String c1 (String c2 s2) =>
            if Ascii.eqb c1 "]" && Ascii.eqb c2 "(" then
              let url := run_until ")" s2 in
              let m := String.length url in
              match m, Str.drop m s2 with
              | S _, String c3 _ =>
                  if Ascii.eqb c3 ")" then Some (text, (n + m + 4)%nat)
                  else None
              | _, _ => None
              end
            else None
        | _, _ => None
        end
      else None
  | EmptyString => None
  end.

(** [re.sub(link_pattern, r'\1', s)]: every match, from left to right and
    none overlapping, is replaced by its group 1. *)
Fixpoint sub_links_from (skip : nat) (s : string) : string :=
  match s with
  | EmptyString => EmptyString
  | String c s' =>
      match skip with
      | S k => sub_links_from k s'
      | O =>
          match link_at s with
          | Some (text, len) => text +:+ sub_links_from (Nat.pred len) s'
          | None => String c (sub_links_from 0 s')
          end
      end
  end.

Definition sub_links (s : string) : string := sub_links_from 0 s.

End Re.

(** ** [datetime] *)

Record datetime : Type := mk_datetime {
  year : Z; month : Z; day : Z;
  hour : Z; minute : Z; second : Z; microsecond : Z
}.

Definition fields (d : datetime) : list Z :=
  [year d; month d; day d; hour d; minute d; second d; microsecond d].

Fixpoint lex_compare (a b : list Z) : comparison :=
  match a, b with
  | [], [] => Eq
  | [], _ :: _ => Lt
  | _ :: _, [] => Gt
  | x :: a', y :: b' =>
      match x ?= y with
      | Eq => lex_compare a' b'
      | c => c
      end
  end.

(** [a >= b] on two datetimes. *)
Definition dt_ge (a b : datetime) : bool :=
  match lex_compare (fields a) (fields b) with
  | Lt => false
  | _ => true
  end.

(** [a < b] on two datetimes. *)
Definition dt_lt (a b : datetime) : bool :=
  match lex_compare (fields a) (fields b) with
  | Lt => true
  | _ => false
  end.

Definition is_leap (y : Z) : bool :=
  (y mod 4 =? 0) && (negb (y mod 100 =? 0) || (y mod 400 =? 0)).

Definition days_in_month (y m : Z) : Z :=
  if m =? 2 then (if is_leap y then 29 else 28)
  else if (m =? 4) || (m =? 6) || (m =? 9) || (m =? 11) then 30
  else 31.

Definition digit_value (c : ascii) : Z := Z.of_N (N_of_ascii c) - 48.

Fixpoint number_of_digits (acc : Z) (s : string) : Z :=
  match s with
  | EmptyString => acc
  | String c s' => number_of_digits (10 * acc + digit_value c) s'
  end.

(** [datetime.strptime(tok, '%Y-%m-%d')] on a match of the date pattern
    (four, two and two digits): midnight of that day, or [ValueError] when
    the digits do not name a day of the calendar (year 0, month 00 or above
    12, day 00 or past the end of the month). *)
Definition strptime (tok : string) : result datetime :=
  match Re.date_at tok with
  | Some _ =>
      if (String.length tok =? 10)%nat then
        let y := number_of_digits 0 (Str.take 4 tok) in
        let m := number_of_digits 0 (Str.take 2 (Str.drop 5 tok)) in
        let d := number_of_digits 0 (Str.take 2 (Str.drop 8 tok)) in
        if (1 <=? y) && (1 <=? m) && (m <=? 12)
           && (1 <=? d) && (d <=? days_in_month y m)
        then Ok (mk_datetime y m d 0 0 0 0)
        else Raise ValueError
      else Raise ValueError
  | None => Raise ValueError
  end.

(** ** Pull requests *)

(** What the class reads of a pull request.  [merged_at] is only read
    behind [pr.merged and ...], where the hosting service always supplies
    it; [body] is [None] or a string. *)
Record PullRequest : Type := mk_pr {
  number : Z;
  title : string;
  body : option string;
  user_login : string;
  merged : bool;
  merged_at : datetime;
  labels : list string
}.

(** ** [AutoChangelogger] *)

(** [self.categories], in insertion order. *)
Definition categories : list (string * string) :=
  [ ("feature",  "### ✨ New Features");
    ("bug",      "### 🐛 Bug Fixes");
    ("docs",     "### 📚 Documentation");
    ("refactor", "### ♻️ Code Refactoring");
    ("test",     "### 🧪 Tests");
    ("chore",    "### 🔧 Maintenance");
    ("breaking", "### ⚠️ Breaking Changes") ]%string.

(** [self.categories.keys()] *)
Definition category_keys : list string := map fst categories.

(** [get_merged_prs]: [pulls] is what [repo.get_pulls] returned. *)
Definition get_merged_prs (pulls : list PullRequest)
    (since_date : option datetime) : list PullRequest :=
  List.filter (fun pr =>
                 merged pr &&
                 match since_date with
                 | None => true
                 | Some since => dt_ge (merged_at pr) since
                 end)
              pulls.

(** The inner loop of [categorize_pr]: the first category, in the order of
    [self.categories], whose key occurs in [label_name]. *)
Fixpoint first_category_in (label_name : string) (keys : list string)
    : option string :=
  match keys with
  | [] => None
  | category :: keys' =>
      if Str.contains category label_name then Some category
      else first_category_in label_name keys'
  end.

(** The outer loop: labels in the order the pull request lists them. *)
Fixpoint category_of_labels (ls : list string) : option string :=
  match ls with
  | [] => None
  | label :: ls' =>
      match first_category_in (Str.lower label) category_keys with
      | Some category => Some category
      | None => category_of_labels ls'
      end
  end.

(** [type_mapping.get(commit_type, 'chore')] *)
Definition type_mapping : list (string * string) :=
  [ ("feat", "feature"); ("fix", "bug"); ("docs", "docs");
    ("refactor", "refactor"); ("test", "test"); ("chore", "chore");
    ("breaking", "breaking") ]%string.

Fixpoint dict_get (d : list (string * string)) (k default : string) : string :=
  match d with
  | [] => default
  | (k', v) :: d' => if String.eqb k k' then v else dict_get d' k default
  end.

Definition categorize_pr (pr : PullRequest) : result string :=
  match category_of_labels (labels pr) with
  | Some category => Ok category
  | None =>
      if Re.conventional_commit (title pr) then
        match Re.leading_word (title pr) with
        | Some commit_type => Ok (dict_get type_mapping commit_type "chore")
        | None => Raise AttributeError
        end
      else Ok "chore"%string
  end.

(** [if pr.body:] holds for a body that is a non-empty string. *)
Definition description (pr : PullRequest) : string :=
  match body pr with
  | Some (String c b) =>
      Re.sub_links (hd EmptyString (Str.split Str.nl_char (String c b)))
  | _ => title pr
  end.

Definition format_changelog_entry (pr : PullRequest) : string :=
  let authors := "@" +:+ user_login pr in
  "- " +:+ description pr +:+ " (#" +:+ Str.of_int (number pr) +:+ ") - "
  +:+ authors.

(** The default document of a path that does not exist yet. *)
Definition default_content : string :=
  "# Changelog" +:+ Str.nl +:+ Str.nl
  +:+ "All notable changes to this project will be documented in this file."
  +:+ Str.nl +:+ Str.nl.

(** Reading the changelog: the content to splice into and [last_update]. *)
Definition read_changelog (file : option string)
    : result (string * option datetime) :=
  match file with
  | Some existing_content =>
      match Re.findall_dates existing_content with
      | first :: _ =>
          do last_update <- strptime first;
          Ok (existing_content, Some last_update)
      | [] => Ok (existing_content, None)
      end
  | None => Ok (default_content, None)
  end.

(** One turn of the grouping loop on [categorized_prs]. *)
Definition add_pr (categorized_prs : gmap string (list PullRequest))
    (category : string) (pr : PullRequest) : gmap string (list PullRequest) :=
  let d := match categorized_prs !! category with
           | None => <[category := []]> categorized_prs
           | Some _ => categorized_prs
           end in
  <[category := default [] (d !! category) ++ [pr]]> d.

Fixpoint group_prs (prs : list PullRequest)
    (categorized_prs : gmap string (list PullRequest))
    : result (gmap string (list PullRequest)) :=
  match prs with
  | [] => Ok categorized_prs
  | pr :: prs' =>
      do category <- categorize_pr pr;
      group_prs prs' (add_pr categorized_prs category pr)
  end.

(** The inner rendering loop: one line per pull request of a category. *)
Definition render_entries (new_section : string) (prs : list PullRequest)
    : string :=
  fold_left (fun acc pr => acc +:+ format_changelog_entry pr +:+ Str.nl)
            prs new_section.

(** One turn of the rendering loop over [self.categories.items()]. *)
Definition render_category (categorized_prs : gmap string (list PullRequest))
    (new_section : string) (item : string * string) : string :=
  let '(category, category_header) := item in
  match categorized_prs !! category with
  | Some (pr :: prs) =>
      render_entries (new_section +:+ category_header +:+ Str.nl +:+ Str.nl)
                     (pr :: prs)
      +:+ Str.nl
  | _ => new_section
  end.

Definition render_section (current_date : string)
    (categorized_prs : gmap string (list PullRequest)) : string :=
  fold_left (render_category categorized_prs) categories
            (Str.nl +:+ "## [" +:+ current_date +:+ "]" +:+ Str.nl +:+ Str.nl).

(** [existing_content[:header_end] + new_section + existing_content[header_end:]] *)
Definition splice (existing_content new_section : string) : string :=
  let header_end := Str.find existing_content (Str.nl +:+ Str.nl) + 2 in
  Str.slice_to existing_content header_end
  +:+ new_section
  +:+ Str.slice_from existing_content header_end.

(** What a run leaves behind: the file and the line it printed. *)
Record run : Type := mk_run {
  file_after : option string;
  printed : string
}.

Definition update_changelog (current_date output_file : string)
    (pulls : list PullRequest) (file : option string) : result run :=
  do read <- read_changelog file;
  let '(existing_content, last_update) := read in
  match get_merged_prs pulls last_update with
  | [] => Ok (mk_run file "No new changes to add to changelog.")
  | prs =>
      do categorized_prs <- group_prs prs ∅;
      let new_section := render_section current_date categorized_prs in
      let updated_content := splice existing_content new_section in
      Ok (mk_run (Some updated_content)
                 ("Changelog updated successfully: " +:+ output_file))
  end.

(** ** Vocabulary of the statements *)

(** [k] occurs in [s]. *)
Definition Infix (k s : string) : Prop := exists a b, s = a +:+ k +:+ b.

(** The category a pull request is filed under. *)
Definition category_of (pr : PullRequest) : string :=
  match categorize_pr pr with
  | Ok category => category
  | Raise _ => "chore"%string
  end.

(** The pull requests of [prs] filed under [category], in the order of
    [prs]. *)
Definition in_category (prs : list PullRequest) (category : string)
    : list PullRequest :=
  List.filter (fun pr => String.eqb (category_of pr) category) prs.

(** The first line of a section. *)
Definition dated_heading (current_date : string) : string :=
  Str.nl +:+ "## [" +:+ current_date +:+ "]" +:+ Str.nl +:+ Str.nl.

(** The block of one category: nothing when no pull request is filed under
    it, else its header, a blank line, one entry per line, a blank line. *)
Definition category_block (prs : list PullRequest) (item : string * string)
    : string :=
  match in_category prs (fst item) with
  | [] => EmptyString
  | group =>
      snd item +:+ Str.nl +:+ Str.nl
      +:+ Str.concat (map (fun pr => format_changelog_entry pr +:+ Str.nl) group)
      +:+ Str.nl
  end.

(** The characters of a string. *)
Definition chars : string -> list ascii := list_ascii_of_string.

(** The title has the shape of the conventional-commit pattern, with type
    [tok]: the type, an optional parenthesised scope of at least one
    character, a colon, a space and a description of at least one character;
    the scope and the first character of the description hold no newline. *)
Definition ConventionalTitle (title tok : string) : Prop :=
  exists scope d desc,
    In tok Re.commit_types /\
    title = tok +:+ scope +:+ ": " +:+ String d desc /\
    d <> Str.nl_char /\
    (scope = "" \/
     exists x, scope = "(" +:+ x +:+ ")" /\ x <> "" /\ ~ In Str.nl_char (chars x)).

(** The category of a commit type, in the words of the specification:
    [feat] is a feature, [fix] a bug, every other type names its category. *)
Definition category_of_type (tok : string) : string :=
  if String.eqb tok "feat" then "feature"
  else if String.eqb tok "fix" then "bug"
  else tok.

(** No label of [ls] mentions a category. *)
Definition unlabelled (ls : list string) : Prop :=
  forall l k, In l ls -> In k category_keys -> ~ Infix k (Str.lower l).

(** [categorized_prs] holds exactly the non-empty groups of [prs]. *)
Definition groups_of (prs : list PullRequest)
    (d : gmap string (list PullRequest)) : Prop :=
  forall category,
    d !! category =
    match in_category prs category with
    | [] => None
    | group => Some group
    end.

(** The categories that get a block in the section of [prs], in the order
    of [self.categories]. *)
Definition section_categories (prs : list PullRequest) : list string :=
  List.filter (fun category =>
                 match in_category prs category with
                 | [] => false
                 | _ => true
                 end)
              category_keys.

(** The classifier as the specification words it: the first category, in
    the enumeration order, that some label mentions. *)
Definition category_by_enumeration (ls : list string) : option string :=
  List.find (fun category =>
               existsb (fun l => Str.contains category (Str.lower l)) ls)
            category_keys.

(** Two labels in both orders (C1). *)
Definition pr_bug_then_feature : PullRequest :=
  mk_pr 12 "Rework the importer" None "dana" true
        (mk_datetime 2024 3 5 9 30 0 0) ["bug"; "feature"].

Definition pr_feature_then_bug : PullRequest :=
  mk_pr 12 "Rework the importer" None "dana" true
        (mk_datetime 2024 3 5 9 30 0 0) ["feature"; "bug"].

(** One label that mentions two categories (C1). *)
Definition pr_two_in_one_label : PullRequest :=
  mk_pr 13 "Tidy up" None "dana" true
        (mk_datetime 2024 3 5 9 30 0 0) ["wontfix"; "Bug in Docs"; "feature"].

(** [s] starts with a Markdown link [[text](url)] and goes on with [rest]:
    a bracket, a text of at least one character free of closing brackets, the
    two characters that close the text and open the address, an address of at
    least one character free of closing parentheses, a closing parenthesis. *)
Definition LinkAt (s text rest : string) : Prop :=
  exists url,
    s = "[" +:+ text +:+ "](" +:+ url +:+ ")" +:+ rest /\
    text <> "" /\ ~ In "]"%char (chars text) /\
    url <> "" /\ ~ In ")"%char (chars url).

(** [out] is [s] with every Markdown link replaced by its text, reading
    from the left. *)
Inductive LinksStripped : string -> string -> Prop :=
| strip_done : LinksStripped "" ""
| strip_link (s text rest out : string) :
    LinkAt s text rest -> LinksStripped rest out ->
    LinksStripped s (text +:+ out)
| strip_char (c : ascii) (s out : string) :
    (forall text rest, ~ LinkAt (String c s) text rest) ->
    LinksStripped s out ->
    LinksStripped (String c s) (String c out).

(** [line] is the first line of [b]. *)
Definition FirstLine (b line : string) : Prop :=
  ~ In Str.nl_char (chars line) /\
  (b = line \/ exists rest, b = line +:+ Str.nl +:+ rest).

(** The blank-line boundary [\n\n]. *)
Definition blank_line : string := Str.nl +:+ Str.nl.

(** [doc] is [header], its first blank-line boundary, and [rest]: no
    boundary starts before the one that ends the header. *)
Definition HeaderSplit (doc header rest : string) : Prop :=
  doc = header +:+ blank_line +:+ rest /\
  forall a b, doc = a +:+ blank_line +:+ b ->
              (String.length header <= String.length a)%nat.

(** The line printed by a run that found nothing to add, and by one that
    wrote the file. *)
Definition no_changes : string := "No new changes to add to changelog.".

Definition updated (output_file : string) : string :=
  "Changelog updated successfully: " +:+ output_file.

(** The header of a category. *)
Definition header_of (category : string) : string :=
  dict_get categories category "".

(** A pull request qualifies for a run with cutoff [cutoff]: it is merged,
    and not merged before the cutoff when there is one. *)
Definition Qualifies (cutoff : option datetime) (pr : PullRequest) : Prop :=
  merged pr = true /\
  match cutoff with
  | None => True
  | Some since => dt_lt (merged_at pr) since = false
  end.

(** No match of the date pattern starts inside [pre] when [rest] follows. *)
Definition DateFree (pre rest : string) : Prop :=
  forall a b, pre = a +:+ b -> b <> "" -> Re.date_at (b +:+ rest) = None.

(** ** Sample runs *)

Definition pr_caching : PullRequest :=
  mk_pr 7 "feat: add caching layer"
        (Some "Adds an LRU cache. See [docs](http://x)") "alice" true
        (mk_datetime 2024 1 1 14 5 0 0) [].

Definition pr_bug_critical : PullRequest :=
  mk_pr 8 "Random fix" None "bob" true
        (mk_datetime 2023 12 31 18 40 0 0) ["bug-critical"].

Definition pr_docs : PullRequest :=
  mk_pr 5 "docs(readme): fix typos" (Some "") "carol" true
        (mk_datetime 2023 12 31 9 0 0 0) [].

(** Merged on the stroke of midnight. *)
Definition pr_at_midnight : PullRequest :=
  mk_pr 9 "fix: off by one" None "erin" true
        (mk_datetime 2024 1 1 0 0 0 0) [].

Definition midnight_2024_01_01 : datetime := mk_datetime 2024 1 1 0 0 0 0.

(** Closed without being merged: no cutoff makes it qualify. *)
Definition pr_closed_unmerged : PullRequest :=
  mk_pr 11 "Try a new parser" (Some "Superseded by #12") "dana" false
        (mk_datetime 2024 2 20 10 0 0 0) [].

(** A changelog whose newest section is dated 2024-01-01. *)
Definition changelog_2024_01_01 : string :=
  default_content
  +:+ "## [2024-01-01]" +:+ blank_line
  +:+ "### 🐛 Bug Fixes" +:+ blank_line
  +:+ "- Fix crash (#3) - @bob" +:+ blank_line.

(** A changelog whose first date-shaped text names no day of the calendar. *)
Definition changelog_2023_02_29 : string :=
  default_content
  +:+ "## [2023-02-29]" +:+ blank_line
  +:+ "### 🐛 Bug Fixes" +:+ blank_line
  +:+ "- Fix crash (#3) - @bob" +:+ blank_line.

(** What the first run of 2024-01-01 writes for [pr_at_midnight] when the
    file does not exist. *)
Definition after_midnight_run : string :=
  "# Changelog" +:+ blank_line
  +:+ dated_heading "2024-01-01"
  +:+ "### 🐛 Bug Fixes" +:+ blank_line
  +:+ "- fix: off by one (#9) - @erin" +:+ blank_line
  +:+ "All notable changes to this project will be documented in this file."
  +:+ blank_line.

(** What the run of 2024-01-01 writes for the two pull requests of
    2023-12-31 when the file does not exist. *)
Definition after_new_year_run : string :=
  "# Changelog" +:+ blank_line
  +:+ dated_heading "2024-01-01"
  +:+ "### 🐛 Bug Fixes" +:+ blank_line
  +:+ "- Random fix (#8) - @bob" +:+ blank_line
  +:+ "### 📚 Documentation" +:+ blank_line
  +:+ "- docs(readme): fix typos (#5) - @carol" +:+ blank_line
  +:+ "All notable changes to this project will be documented in this file."
  +:+ blank_line.

(** A changelog that is its title line and nothing else. *)
Definition title_only : string := "# Changelog" +:+ Str.nl.

(** The section of 2024-01-01 for [pr_caching] alone. *)
Definition caching_section : string :=
  dated_heading "2024-01-01"
  +:+ "### ✨ New Features" +:+ blank_line
  +:+ "- Adds an LRU cache. See docs (#7) - @alice" +:+ blank_line.

(** ** More sample data *)

(** A title whose first word is a commit type with a capital. *)
Definition pr_capital_feat : PullRequest :=
  mk_pr 21 "Feat: add dark mode" None "fay" true
        (mk_datetime 2024 2 2 8 0 0 0) [].

(** The same pull request seen twice, the label in two spellings and the
    rest of the record changed. *)
Definition pr_upper_label : PullRequest :=
  mk_pr 22 "Harden the parser" (Some "Rejects empty input") "gus" true
        (mk_datetime 2024 2 3 8 0 0 0) ["Type: BUG"].

Definition pr_lower_label : PullRequest :=
  mk_pr 23 "Harden the parser" None "hal" false
        (mk_datetime 2020 1 1 0 0 0 0) ["type: bug"].

(** A body of two lines, the first without a link. *)
Definition pr_plain_body : PullRequest :=
  mk_pr 24 "fix: crash on start"
        (Some ("Guard the [config] lookup (see notes)" +:+ Str.nl
               +:+ "Details in [the wiki](http://wiki)"))
        "ivy" true (mk_datetime 2024 2 4 8 0 0 0) [].

(** The content a run splices into: the file, or the default document. *)
Definition content_of (file : option string) : string :=
  match file with
  | Some existing_content => existing_content
  | None => default_content
  end.

(** [since1] is no later than [since2]; no cutoff is earlier than any. *)
Definition cutoff_not_later (since1 : option datetime) (since2 : datetime)
    : Prop :=
  match since1 with
  | None => True
  | Some s1 => dt_ge since2 s1 = true
  end.

Definition noon_2024_01_03 : datetime := mk_datetime 2024 1 3 12 0 0 0.

(** No match of the date pattern starts inside [pre] when [rest] follows,
    checked position by position. *)
Fixpoint no_date_starts (pre rest : string) : bool :=
  match pre with
  | EmptyString => true
  | String _ pre' =>
      match Re.date_at (pre +:+ rest) with
      | Some _ => false
      | None => no_date_starts pre' rest
      end
  end.

(** A changelog whose introduction mentions a date older than its newest
    section. *)
Definition changelog_since_2020 : string :=
  "# Changelog" +:+ blank_line
  +:+ "Maintained since 2020-05-05." +:+ blank_line
  +:+ "## [2024-01-01]" +:+ blank_line
  +:+ "### 🐛 Bug Fixes" +:+ blank_line
  +:+ "- Fix crash (#3) - @bob" +:+ blank_line.

Definition midnight_2020_05_05 : datetime := mk_datetime 2020 5 5 0 0 0 0.

(** * Properties *)

(** ** Strings *)

Lemma append_nil_r (s : string) : s +:+ "" = s.
Proof. induction s as [|c s IH]; simpl; [reflexivity | now rewrite IH]. Qed.

Lemma append_assoc (a b c : string) : (a +:+ b) +:+ c = a +:+ (b +:+ c).
Proof. induction a as [|x a IH]; simpl; [reflexivity | now rewrite IH]. Qed.

Lemma length_append (a b : string) :
  String.length (a +:+ b) = (String.length a + String.length b)%nat.
Proof. induction a as [|x a IH]; simpl; [reflexivity | now rewrite IH]. Qed.

Lemma take_append (a b : string) : Str.take (String.length a) (a +:+ b) = a.
Proof. induction a as [|x a IH]; simpl; [now destruct b | now rewrite IH]. Qed.

Lemma drop_append (a b : string) : Str.drop (String.length a) (a +:+ b) = b.
Proof. induction a as [|x a IH]; simpl; [now destruct b | exact IH]. Qed.

Lemma take_drop (n : nat) (s : string) : Str.take n s +:+ Str.drop n s = s.
Proof.
  revert s; induction n as [|n IH]; intros [|c s]; simpl; try reflexivity.
  now rewrite IH.
Qed.

Lemma prefix_iff (a s : string) :
  String.prefix a s = true <-> exists r, s = a +:+ r.
Proof.
  revert s; induction a as [|x a IH]; intros [|y s]; simpl.
  - split; eauto.
  - split; eauto.
  - split; [discriminate | intros [r Hr]; discriminate].
  - destruct (ascii_dec x y) as [->|Hxy].
    + rewrite IH. split; intros [r Hr]; exists r; congruence.
    + split; [discriminate | intros [r Hr]; congruence].
Qed.

Lemma contains_unfold (k s : string) :
  Str.contains k s =
  if String.prefix k s then true
  else match s with
       | EmptyString => false
       | String _ s' => Str.contains k s'
       end.
Proof. destruct s; reflexivity. Qed.

Lemma contains_iff (k s : string) : Str.contains k s = true <-> Infix k s.
Proof.
  induction s as [|c s IH]; rewrite contains_unfold.
  - destruct (String.prefix k "") eqn:Hp.
    + apply prefix_iff in Hp as [r Hr]. split; [|reflexivity].
      intros _. exists "", r. exact Hr.
    + split; [discriminate|]. intros [a [b Hab]]. destruct a; [|discriminate].
      assert (String.prefix k "" = true) by (apply prefix_iff; eauto).
      congruence.
  - destruct (String.prefix k (String c s)) eqn:Hp.
    + apply prefix_iff in Hp as [r Hr]. split; [|reflexivity].
      intros _. exists "", r. exact Hr.
    + rewrite IH. split.
      * intros [a [b Hab]]. exists (String c a), b. simpl. now rewrite Hab.
      * intros [a [b Hab]]. destruct a as [|x a].
        -- assert (String.prefix k (String c s) = true)
             by (apply prefix_iff; eauto).
           congruence.
        -- exists a, b. simpl in Hab. congruence.
Qed.

(** ** The conventional-commit pattern *)

Lemma is_dot_iff (c : ascii) : Re.is_dot c = true <-> c <> Str.nl_char.
Proof.
  unfold Re.is_dot. destruct (Ascii.eqb_spec c Str.nl_char); simpl; split;
    congruence.
Qed.

Lemma description_at_iff (s : string) :
  Re.description_at s = true <->
  exists d desc, s = ": " +:+ String d desc /\ d <> Str.nl_char.
Proof.
  split.
  - destruct s as [|c1 [|c2 [|c3 s]]]; simpl; try discriminate.
    intros H. apply andb_true_iff in H as [H H3].
    apply andb_true_iff in H as [H1 H2].
    apply Ascii.eqb_eq in H1, H2. apply is_dot_iff in H3. subst.
    exists c3, s. split; [reflexivity | assumption].
  - intros (d & desc & -> & Hd). simpl. now apply is_dot_iff.
Qed.

Lemma scope_rest_iff (s : string) :
  Re.scope_rest s = true <->
  exists x r, s = x +:+ ")" +:+ r /\ ~ In Str.nl_char (chars x)
              /\ Re.description_at r = true.
Proof.
  induction s as [|c s IH]; simpl.
  - split; [discriminate|]. intros (x & r & Hx & _). destruct x; discriminate.
  - rewrite orb_true_iff, !andb_true_iff, IH, Ascii.eqb_eq, is_dot_iff. split.
    + intros [[-> Hd] | [Hc (x & r & -> & Hx & Hr)]].
      * exists "", s. simpl. tauto.
      * exists (String c x), r. simpl. intuition congruence.
    + intros (x & r & Hs & Hx & Hr). destruct x as [|y x]; simpl in Hs, Hx.
      * left. injection Hs as -> ->. tauto.
      * right. injection Hs as -> ->. split; [intuition congruence|].
        exists x, r. intuition.
Qed.

Lemma scope_at_iff (s : string) :
  Re.scope_at s = true <->
  exists x r, s = "(" +:+ x +:+ ")" +:+ r /\ x <> "" /\ ~ In Str.nl_char (chars x)
              /\ Re.description_at r = true.
Proof.
  split.
  - destruct s as [|c1 [|c2 s]]; simpl; try discriminate.
    rewrite !andb_true_iff, Ascii.eqb_eq, is_dot_iff, scope_rest_iff.
    intros [[-> Hc2] (x & r & -> & Hx & Hr)].
    exists (String c2 x), r. simpl. intuition congruence.
  - intros (x & r & -> & Hne & Hx & Hr). destruct x as [|y x]; [congruence|].
    simpl. simpl in Hx.
    rewrite !andb_true_iff, is_dot_iff, scope_rest_iff.
    split; [intuition congruence|]. exists x, r. intuition.
Qed.

Lemma conventional_commit_iff (title : string) :
  Re.conventional_commit title = true <-> exists tok, ConventionalTitle title tok.
Proof.
  unfold Re.conventional_commit. rewrite existsb_exists. split.
  - intros (tok & Hin & H). apply andb_true_iff in H as [Hp Ha].
    apply prefix_iff in Hp as [r ->]. rewrite drop_append in Ha.
    exists tok. apply orb_true_iff in Ha as [Hs | Hd].
    + apply scope_at_iff in Hs as (x & r' & -> & Hne & Hx & Hr).
      apply description_at_iff in Hr as (d & desc & -> & Hd).
      exists ("(" +:+ x +:+ ")"), d, desc. split; [assumption|].
      split; [now rewrite !append_assoc|]. split; [assumption|].
      right. eauto.
    + apply description_at_iff in Hd as (d & desc & -> & Hd).
      exists "", d, desc. simpl. auto.
  - intros (tok & scope & d & desc & Hin & -> & Hd & Hs). exists tok.
    split; [assumption|]. apply andb_true_iff. split.
    + apply prefix_iff. eauto.
    + rewrite drop_append. unfold Re.after_type. apply orb_true_iff.
      destruct Hs as [-> | (x & -> & Hne & Hx)].
      * right. apply description_at_iff. eauto.
      * left. apply scope_at_iff. exists x, (": " +:+ String d desc).
        rewrite !append_assoc. repeat split; try assumption.
        apply description_at_iff. eauto.
Qed.

Lemma leading_word_of_title (title tok : string) :
  ConventionalTitle title tok -> Re.leading_word title = Some tok.
Proof.
  intros (scope & d & desc & Hin & -> & _ & Hs).
  assert (Hr : exists c r, scope +:+ ": " +:+ String d desc = String c r
                           /\ Re.is_word c = false).
  { destruct Hs as [-> | (x & -> & _)]; simpl; eauto. }
  destruct Hr as (c & r & -> & Hc). unfold Re.leading_word.
  simpl in Hin.
  repeat (destruct Hin as [<- | Hin]; [simpl; now rewrite Hc|]).
  contradiction.
Qed.

Lemma type_mapping_get (tok : string) :
  In tok Re.commit_types ->
  dict_get type_mapping tok "chore" = category_of_type tok
  /\ In (category_of_type tok) category_keys.
Proof.
  simpl. intros H.
  repeat (destruct H as [<- | H]; [vm_compute; tauto|]). contradiction.
Qed.

(** ** Classification *)

Lemma category_of_labels_cons (l : string) (ls : list string) :
  category_of_labels (l :: ls) =
  match first_category_in (Str.lower l) category_keys with
  | Some category => Some category
  | None => category_of_labels ls
  end.
Proof. reflexivity. Qed.

(** The inner loop returns the first key, in the order of [keys], that
    occurs in the label. *)
Lemma first_category_in_Some (l : string) (keys : list string) (c : string) :
  first_category_in l keys = Some c ->
  exists earlier later,
    keys = earlier ++ c :: later /\ Infix c l /\
    forall k, In k earlier -> ~ Infix k l.
Proof.
  induction keys as [|k keys IH]; simpl; [discriminate|].
  destruct (Str.contains k l) eqn:Hk.
  - intros [= <-]. exists [], keys. split; [reflexivity|].
    split; [now apply contains_iff | intros ? []].
  - intros H. destruct (IH H) as (e & la & -> & Hc & He).
    exists (k :: e), la. split; [reflexivity|]. split; [assumption|].
    intros k' [<- | Hin]; [|now apply He].
    rewrite <- contains_iff. congruence.
Qed.

Lemma first_category_in_None (l : string) (keys : list string) :
  first_category_in l keys = None <-> forall k, In k keys -> ~ Infix k l.
Proof.
  induction keys as [|k keys IH]; simpl.
  - split; [intros _ ? [] | reflexivity].
  - destruct (Str.contains k l) eqn:Hk.
    + split; [discriminate|]. intros H. exfalso. apply (H k); [now left|].
      now apply contains_iff.
    + rewrite IH. split.
      * intros H k' [<- | Hin]; [|now apply H].
        rewrite <- contains_iff. congruence.
      * intros H k' Hin. apply H. now right.
Qed.

Lemma category_of_labels_None (ls : list string) :
  category_of_labels ls = None <-> unlabelled ls.
Proof.
  unfold unlabelled. induction ls as [|l ls IH].
  - split; [intros _ ? ? [] | reflexivity].
  - rewrite category_of_labels_cons.
    destruct (first_category_in (Str.lower l) category_keys) as [c|] eqn:Hl.
    + split; [discriminate|]. intros H. exfalso.
      apply first_category_in_Some in Hl as (e & la & Hk & Hc & _).
      apply (H l c); [now left | | assumption].
      rewrite Hk. apply in_elt.
    + rewrite IH. rewrite first_category_in_None in Hl. split.
      * intros H l' k [<- | Hin] Hk; [now apply Hl | now apply H].
      * intros H l' k Hin. apply H. now right.
Qed.

(** The outer loop stops at the first label that mentions a category. *)
Lemma category_of_labels_app (before after : list string) (l : string) :
  unlabelled before ->
  category_of_labels (before ++ l :: after) =
  match first_category_in (Str.lower l) category_keys with
  | Some c => Some c
  | None => category_of_labels after
  end.
Proof.
  intros Hb. induction before as [|b before IH]; [reflexivity|].
  rewrite <- app_comm_cons, category_of_labels_cons.
  assert (Hn : first_category_in (Str.lower b) category_keys = None).
  { apply first_category_in_None. intros k Hk. apply Hb; [now left | assumption]. }
  rewrite Hn. apply IH. intros l' k Hin. apply Hb. now right.
Qed.

Lemma category_of_labels_Some (ls : list string) (c : string) :
  category_of_labels ls = Some c ->
  In c category_keys /\ exists l, In l ls /\ Infix c (Str.lower l).
Proof.
  induction ls as [|l ls IH]; [discriminate|].
  rewrite category_of_labels_cons.
  destruct (first_category_in (Str.lower l) category_keys) as [c'|] eqn:Hl.
  - intros [= <-]. apply first_category_in_Some in Hl as (e & la & Hk & Hc & _).
    split; [rewrite Hk; apply in_elt|]. exists l. split; [now left | assumption].
  - intros H. destruct (IH H) as (Hin & l' & Hl' & Hc). split; [assumption|].
    exists l'. split; [now right | assumption].
Qed.

(** [categorize_pr] never raises, and its result is a key of
    [self.categories]. *)
Lemma categorize_pr_total (pr : PullRequest) :
  categorize_pr pr = Ok (category_of pr) /\ In (category_of pr) category_keys.
Proof.
  unfold category_of, categorize_pr.
  destruct (category_of_labels (labels pr)) as [c|] eqn:Hl.
  - split; [reflexivity|]. now apply category_of_labels_Some in Hl.
  - destruct (Re.conventional_commit (title pr)) eqn:Ht.
    + apply conventional_commit_iff in Ht as [tok Htok].
      rewrite (leading_word_of_title _ _ Htok).
      destruct Htok as (_ & _ & _ & Hin & _).
      split; [reflexivity|].
      change (In (dict_get type_mapping tok "chore") category_keys).
      destruct (type_mapping_get tok Hin) as [-> Hk]. exact Hk.
    + split; [reflexivity|]. vm_compute. tauto.
Qed.

Lemma conventional_title_unique (title tok1 tok2 : string) :
  ConventionalTitle title tok1 -> ConventionalTitle title tok2 -> tok1 = tok2.
Proof.
  intros H1 H2. apply leading_word_of_title in H1, H2. congruence.
Qed.

(** ** Grouping *)

Lemma in_category_snoc (prs : list PullRequest) (pr : PullRequest) (c : string) :
  in_category (prs ++ [pr]) c =
  if String.eqb (category_of pr) c then in_category prs c ++ [pr]
  else in_category prs c.
Proof.
  unfold in_category. rewrite List.filter_app. simpl.
  destruct (String.eqb (category_of pr) c); [reflexivity | apply app_nil_r].
Qed.

Lemma add_pr_groups (prs : list PullRequest) (pr : PullRequest)
    (d : gmap string (list PullRequest)) :
  groups_of prs d ->
  groups_of (prs ++ [pr]) (add_pr d (category_of pr) pr).
Proof.
  intros Hd c. rewrite in_category_snoc. unfold add_pr.
  destruct (String.eqb_spec (category_of pr) c) as [<-|Hne].
  - rewrite lookup_insert_eq.
    pose proof (Hd (category_of pr)) as Hc.
    destruct (d !! category_of pr) as [g|] eqn:Hl.
    + rewrite Hl. simpl.
      destruct (in_category prs (category_of pr)) as [|x g'] eqn:Hg;
        [discriminate|]. injection Hc as ->. reflexivity.
    + rewrite lookup_insert_eq. simpl.
      destruct (in_category prs (category_of pr)); [reflexivity | discriminate].
  - rewrite lookup_insert_ne by exact Hne.
    destruct (d !! category_of pr).
    + apply Hd.
    + rewrite lookup_insert_ne by exact Hne. apply Hd.
Qed.

Lemma groups_of_empty : groups_of [] ∅.
Proof. intros c. apply lookup_empty. Qed.

(** The grouping loop never raises and files every pull request under its
    category, after the ones filed before it. *)
Lemma group_prs_groups (rest sofar : list PullRequest)
    (d : gmap string (list PullRequest)) :
  groups_of sofar d ->
  exists d', group_prs rest d = Ok d' /\ groups_of (sofar ++ rest) d'.
Proof.
  revert sofar d. induction rest as [|pr rest IH]; intros sofar d Hd.
  - exists d. rewrite app_nil_r. auto.
  - simpl. destruct (categorize_pr_total pr) as [-> _]. simpl.
    destruct (IH (sofar ++ [pr]) _ (add_pr_groups _ pr _ Hd)) as (d' & Hg & Hd').
    exists d'. split; [exact Hg|]. now rewrite <- app_assoc in Hd'.
Qed.

(** ** Rendering *)

Lemma concat_app (l1 l2 : list string) :
  Str.concat (l1 ++ l2) = Str.concat l1 +:+ Str.concat l2.
Proof.
  induction l1 as [|s l1 IH]; simpl; [reflexivity|].
  now rewrite IH, append_assoc.
Qed.

Lemma render_entries_concat (prs : list PullRequest) (acc : string) :
  render_entries acc prs =
  acc +:+ Str.concat (map (fun pr => format_changelog_entry pr +:+ Str.nl) prs).
Proof.
  unfold render_entries. revert acc.
  induction prs as [|pr prs IH]; intros acc; cbn [fold_left map Str.concat].
  - now rewrite append_nil_r.
  - rewrite IH. now rewrite !append_assoc.
Qed.

Lemma render_category_block (prs : list PullRequest)
    (d : gmap string (list PullRequest)) (acc : string) (item : string * string) :
  groups_of prs d ->
  render_category d acc item = acc +:+ category_block prs item.
Proof.
  intros Hd. destruct item as [category header].
  unfold render_category, category_block. rewrite (Hd category).
  cbn [fst snd]. destruct (in_category prs category) as [|pr g].
  - now rewrite append_nil_r.
  - rewrite render_entries_concat. now rewrite !append_assoc.
Qed.

Lemma render_categories_blocks (prs : list PullRequest)
    (d : gmap string (list PullRequest)) (items : list (string * string))
    (acc : string) :
  groups_of prs d ->
  fold_left (render_category d) items acc =
  acc +:+ Str.concat (map (category_block prs) items).
Proof.
  intros Hd. revert acc.
  induction items as [|item items IH]; intros acc; cbn [fold_left map Str.concat].
  - now rewrite append_nil_r.
  - rewrite IH, (render_category_block prs) by exact Hd.
    now rewrite append_assoc.
Qed.

Lemma in_category_perm (prs prs' : list PullRequest) (category : string) :
  Permutation prs prs' ->
  Permutation (in_category prs category) (in_category prs' category).
Proof.
  intros H. unfold in_category.
  induction H as [|x l l' _ IH|x y l|l l' l'' _ IH1 _ IH2]; simpl.
  - constructor.
  - destruct (String.eqb (category_of x) category); [now constructor | exact IH].
  - destruct (String.eqb (category_of x) category),
             (String.eqb (category_of y) category);
      try reflexivity. apply perm_swap.
  - now transitivity (List.filter (fun pr => String.eqb (category_of pr) category) l').
Qed.

Lemma section_categories_perm (prs prs' : list PullRequest) :
  Permutation prs prs' -> section_categories prs' = section_categories prs.
Proof.
  intros H. unfold section_categories. apply List.filter_ext. intros c.
  pose proof (in_category_perm _ _ c H) as Hc.
  destruct (in_category prs c) as [|x g], (in_category prs' c) as [|y g'];
    try reflexivity.
  - now apply Permutation_nil in Hc.
  - symmetry in Hc. now apply Permutation_nil in Hc.
Qed.

(** C7. The rendered section is the dated heading followed by the blocks of
    the categories taken in the order of [self.categories] (feature, bug,
    docs, refactor, test, chore, breaking); the block of a category is
    empty when no pull request is filed under it, and otherwise lists the
    entries of its pull requests in the order they were selected.  Which
    categories get a block does not depend on the order of the pull
    requests. *)
Theorem section_blocks_in_enumeration_order
    (current_date : string) (prs : list PullRequest) :
  category_keys
  = ["feature"; "bug"; "docs"; "refactor"; "test"; "chore"; "breaking"]
  /\ (exists categorized_prs,
        group_prs prs ∅ = Ok categorized_prs /\
        render_section current_date categorized_prs =
        dated_heading current_date
        +:+ Str.concat (map (category_block prs) categories))
  /\ (forall prs', Permutation prs prs' ->
        section_categories prs' = section_categories prs).
Proof.
  split; [reflexivity|]. split; [|apply section_categories_perm].
  destruct (group_prs_groups prs [] ∅ groups_of_empty) as (d & Hg & Hd).
  exists d. split; [exact Hg|]. unfold render_section.
  now apply render_categories_blocks.
Qed.

(** ** What [categorize_pr] returns *)

Lemma categorize_pr_labelled (pr : PullRequest) (c : string) :
  category_of_labels (labels pr) = Some c -> categorize_pr pr = Ok c.
Proof. unfold categorize_pr. now intros ->. Qed.

(** C1, as the code has it.  The labels are scanned in the order the pull
    request lists them: the first label that mentions any category decides,
    and among the categories that label mentions the first in the
    enumeration order is returned. *)
Theorem categorize_pr_first_matching_label
    (pr : PullRequest) (before after : list string) (l k : string) :
  labels pr = before ++ l :: after ->
  unlabelled before ->
  In k category_keys -> Infix k (Str.lower l) ->
  exists c earlier later,
    categorize_pr pr = Ok c /\
    category_keys = earlier ++ c :: later /\
    Infix c (Str.lower l) /\
    forall k', In k' earlier -> ~ Infix k' (Str.lower l).
Proof.
  intros Hl Hb Hk Hin.
  destruct (first_category_in (Str.lower l) category_keys) as [c|] eqn:Hc.
  - destruct (first_category_in_Some _ _ _ Hc) as (e & la & Hks & Hcl & He).
    exists c, e, la. split; [|auto].
    apply categorize_pr_labelled. rewrite Hl, category_of_labels_app by exact Hb.
    now rewrite Hc.
  - exfalso. rewrite first_category_in_None in Hc. exact (Hc k Hk Hin).
Qed.

Lemma categorize_pr_first_matching_label_witness :
  exists c earlier later,
    categorize_pr pr_two_in_one_label = Ok c /\
    category_keys = earlier ++ c :: later /\
    Infix c (Str.lower "Bug in Docs") /\
    forall k', In k' earlier -> ~ Infix k' (Str.lower "Bug in Docs").
Proof.
  apply (categorize_pr_first_matching_label
           pr_two_in_one_label ["wontfix"] ["feature"] "Bug in Docs" "docs").
  - reflexivity.
  - intros l k [<- | []] Hk. rewrite <- contains_iff. intros Hc.
    vm_compute in Hk.
    repeat (destruct Hk as [<- | Hk]; [vm_compute in Hc; discriminate|]).
    destruct Hk.
  - vm_compute. tauto.
  - apply contains_iff. reflexivity.
Defined.

(** C1 fails as stated: with the labels [bug] and [feature] in this order
    the result is [bug], although [feature] comes first in the enumeration
    order, and swapping the two labels changes the result. *)
Lemma categorize_pr_label_order_counterexample :
  categorize_pr pr_bug_then_feature = Ok "bug"
  /\ category_by_enumeration (labels pr_bug_then_feature) = Some "feature"
  /\ categorize_pr pr_feature_then_bug = Ok "feature"
  /\ Permutation (labels pr_bug_then_feature) (labels pr_feature_then_bug).
Proof.
  split; [reflexivity|]. split; [reflexivity|]. split; [reflexivity|].
  apply perm_swap.
Qed.

(** C8. [categorize_pr] is total, with a key of [self.categories] as its
    result, and follows the precedence labels, then title, then [chore]:
    when some label mentions a category the result is a category that a
    label mentions; otherwise, when the title has the conventional-commit
    shape, the result is the category of its type ([feat] gives [feature],
    [fix] gives [bug], the other types themselves), whatever the scope;
    otherwise the result is [chore]. *)
Theorem categorize_pr_total_with_precedence (pr : PullRequest) :
  (exists c, categorize_pr pr = Ok c /\ In c category_keys)
  /\ (~ unlabelled (labels pr) ->
      exists c l, categorize_pr pr = Ok c /\ In c category_keys /\
                  In l (labels pr) /\ Infix c (Str.lower l))
  /\ (unlabelled (labels pr) ->
      forall tok, ConventionalTitle (title pr) tok ->
                  categorize_pr pr = Ok (category_of_type tok))
  /\ (unlabelled (labels pr) ->
      (forall tok, ~ ConventionalTitle (title pr) tok) ->
      categorize_pr pr = Ok "chore").
Proof.
  split; [|split; [|split]].
  - exists (category_of pr). apply categorize_pr_total.
  - intros Hn. destruct (category_of_labels (labels pr)) as [c|] eqn:Hc.
    + destruct (category_of_labels_Some _ _ Hc) as (Hk & l & Hl & Hi).
      exists c, l. split; [now apply categorize_pr_labelled | auto].
    + exfalso. apply Hn. now apply category_of_labels_None.
  - intros Hu tok Ht. apply category_of_labels_None in Hu.
    unfold categorize_pr. rewrite Hu.
    assert (Hm : Re.conventional_commit (title pr) = true)
      by (apply conventional_commit_iff; eauto).
    rewrite Hm, (leading_word_of_title _ _ Ht).
    destruct Ht as (_ & _ & _ & Hin & _).
    now destruct (type_mapping_get tok Hin) as [-> _].
  - intros Hu Ht. apply category_of_labels_None in Hu.
    unfold categorize_pr. rewrite Hu.
    destruct (Re.conventional_commit (title pr)) eqn:Hm; [|reflexivity].
    apply conventional_commit_iff in Hm as [tok Htok]. now destruct (Ht tok).
Qed.

(** ** The link pattern *)

Lemma chars_append (a b : string) : chars (a +:+ b) = chars a ++ chars b.
Proof. induction a as [|x a IH]; simpl; [reflexivity | now rewrite IH]. Qed.

Lemma run_until_prefix (stop : ascii) (s : string) :
  s = Re.run_until stop s +:+ Str.drop (String.length (Re.run_until stop s)) s.
Proof.
  induction s as [|c s IH]; simpl; [reflexivity|].
  destruct (Ascii.eqb c stop); simpl; [reflexivity | now rewrite <- IH].
Qed.

Lemma run_until_free (stop : ascii) (s : string) :
  ~ In stop (chars (Re.run_until stop s)).
Proof.
  induction s as [|c s IH]; simpl; [tauto|].
  destruct (Ascii.eqb_spec c stop); simpl; [tauto | intuition congruence].
Qed.

Lemma run_until_stop (stop : ascii) (a r : string) :
  ~ In stop (chars a) -> Re.run_until stop (a +:+ String stop r) = a.
Proof.
  induction a as [|c a IH]; simpl; intros H.
  - now rewrite Ascii.eqb_refl.
  - destruct (Ascii.eqb_spec c stop); [intuition congruence|].
    rewrite IH; [reflexivity | tauto].
Qed.

Lemma link_at_Some (s text : string) (len : nat) :
  Re.link_at s = Some (text, len) ->
  exists url rest,
    s = "[" +:+ text +:+ "](" +:+ url +:+ ")" +:+ rest /\
    text <> "" /\ ~ In "]"%char (chars text) /\
    url <> "" /\ ~ In ")"%char (chars url) /\
    len = (String.length text + String.length url + 4)%nat.
Proof.
  destruct s as [|c s1]; [discriminate|]. unfold Re.link_at.
  destruct (Ascii.eqb_spec c "["); [subst c | discriminate]. cbv zeta.
  pose proof (run_until_prefix "]" s1) as H1.
  pose proof (run_until_free "]" s1) as F1.
  set (t := Re.run_until "]" s1) in *.
  destruct (String.length t) as [|n] eqn:Hn; [discriminate|].
  destruct (Str.drop (S n) s1) as [|c1 [|c2 s2]] eqn:Hd; try discriminate.
  destruct (Ascii.eqb c1 "]") eqn:E1; [|discriminate].
  destruct (Ascii.eqb c2 "(") eqn:E2; [|discriminate].
  apply Ascii.eqb_eq in E1, E2. subst c1 c2. cbn [andb]. cbv zeta.
  pose proof (run_until_prefix ")" s2) as H2.
  pose proof (run_until_free ")" s2) as F2.
  set (u := Re.run_until ")" s2) in *.
  destruct (String.length u) as [|m] eqn:Hm; [discriminate|].
  destruct (Str.drop (S m) s2) as [|c3 r] eqn:Hd2; [discriminate|].
  destruct (Ascii.eqb c3 ")") eqn:E3; [|discriminate].
  apply Ascii.eqb_eq in E3. subst c3.
  intros [= <- <-]. exists u, r.
  split; [rewrite H1 at 1; rewrite H2 at 1; reflexivity|].
  split; [intros E; rewrite E in Hn; discriminate|].
  split; [exact F1|].
  split; [intros E; rewrite E in Hm; discriminate|].
  split; [exact F2|]. rewrite Hn, Hm. reflexivity.
Qed.

Lemma link_at_link (text url rest : string) :
  text <> "" -> ~ In "]"%char (chars text) ->
  url <> "" -> ~ In ")"%char (chars url) ->
  Re.link_at ("[" +:+ text +:+ "](" +:+ url +:+ ")" +:+ rest)
  = Some (text, (String.length text + String.length url + 4)%nat).
Proof.
  intros Ht Ft Hu Fu.
  change ("[" +:+ text +:+ "](" +:+ url +:+ ")" +:+ rest)
    with (String "[" (text +:+ String "]" (String "(" (url +:+ String ")" rest)))).
  unfold Re.link_at. change (Ascii.eqb "[" "[") with true. cbv iota zeta.
  rewrite run_until_stop by exact Ft.
  destruct (String.length text) as [|n] eqn:Hn;
    [destruct text; [congruence | discriminate]|].
  rewrite <- Hn, drop_append.
  change (Ascii.eqb "]" "]" && Ascii.eqb "(" "(") with true. cbv iota zeta.
  rewrite run_until_stop by exact Fu.
  destruct (String.length url) as [|m] eqn:Hm;
    [destruct url; [congruence | discriminate]|].
  rewrite <- Hm, drop_append.
  change (Ascii.eqb ")" ")") with true. reflexivity.
Qed.

Lemma link_at_complete (s text rest : string) :
  LinkAt s text rest -> exists len, Re.link_at s = Some (text, len).
Proof.
  intros (url & -> & Ht & Ft & Hu & Fu). rewrite link_at_link; eauto.
Qed.

Lemma sub_links_from_skip (pre rest : string) :
  Re.sub_links_from (String.length pre) (pre +:+ rest)
  = Re.sub_links_from 0 rest.
Proof. induction pre as [|c pre IH]; simpl; [now destruct rest | exact IH]. Qed.

Lemma sub_links_link (s text rest : string) :
  LinkAt s text rest -> Re.sub_links s = text +:+ Re.sub_links rest.
Proof.
  intros (url & -> & Ht & Ft & Hu & Fu).
  pose proof (link_at_link text url rest Ht Ft Hu Fu) as Hl.
  change ("[" +:+ text +:+ "](" +:+ url +:+ ")" +:+ rest)
    with (String "[" (text +:+ "](" +:+ url +:+ ")" +:+ rest)) in *.
  unfold Re.sub_links. cbn [Re.sub_links_from]. rewrite Hl. f_equal.
  replace (Nat.pred (String.length text + String.length url + 4))
    with (String.length (text +:+ "](" +:+ url +:+ ")")).
  - rewrite <- sub_links_from_skip with (pre := text +:+ "](" +:+ url +:+ ")").
    f_equal. now rewrite !append_assoc.
  - rewrite !length_append. simpl. lia.
Qed.

Lemma sub_links_char (c : ascii) (s : string) :
  Re.link_at (String c s) = None ->
  Re.sub_links (String c s) = String c (Re.sub_links s).
Proof. unfold Re.sub_links. cbn [Re.sub_links_from]. now intros ->. Qed.

Lemma link_at_None (s : string) :
  Re.link_at s = None <-> forall text rest, ~ LinkAt s text rest.
Proof.
  split.
  - intros Hn text rest H. apply link_at_complete in H as [len H]. congruence.
  - intros H. destruct (Re.link_at s) as [[text len]|] eqn:Hl; [|reflexivity].
    apply link_at_Some in Hl as (url & rest & Hs & Ht & Ft & Hu & Fu & _).
    destruct (H text rest). exists url. auto.
Qed.

(** [re.sub] replaces every link by its text. *)
Lemma sub_links_stripped (s : string) : LinksStripped s (Re.sub_links s).
Proof.
  remember (String.length s) as n eqn:Hn.
  revert s Hn. induction n as [n IH] using lt_wf_ind. intros s Hn.
  destruct s as [|c s]; [constructor|].
  destruct (Re.link_at (String c s)) as [[text len]|] eqn:Hl.
  - apply link_at_Some in Hl as (url & rest & Hs & Ht & Ft & Hu & Fu & _).
    assert (Hlink : LinkAt (String c s) text rest) by (exists url; auto).
    rewrite (sub_links_link _ _ _ Hlink). apply strip_link with rest; [exact Hlink|].
    apply (IH (String.length rest)); [|reflexivity].
    rewrite Hn, Hs. rewrite !length_append. simpl. lia.
  - rewrite (sub_links_char _ _ Hl). apply strip_char.
    + now apply link_at_None.
    + apply (IH (String.length s)); [|reflexivity]. rewrite Hn. simpl. lia.
Qed.

(** ... and nothing else is a stripping of [s]. *)
Lemma stripped_sub_links (s out : string) :
  LinksStripped s out -> out = Re.sub_links s.
Proof.
  induction 1 as [|s text rest out Hlink _ IH|c s out Hno _ IH].
  - reflexivity.
  - now rewrite (sub_links_link _ _ _ Hlink), IH.
  - apply link_at_None in Hno. now rewrite (sub_links_char _ _ Hno), IH.
Qed.

Lemma stripped_chars (s out : string) (c : ascii) :
  LinksStripped s out -> In c (chars out) -> In c (chars s).
Proof.
  induction 1 as [|s text rest out Hl _ IH|x s out _ _ IH]; simpl.
  - tauto.
  - destruct Hl as (url & -> & _). rewrite !chars_append. rewrite !in_app_iff. intros [H | H]; [tauto|].
    right. right. right. right. right. auto.
  - intros [H | H]; [now left | right; auto].
Qed.

(** ** The first line of a body *)

Lemma split_no_sep (sep : ascii) (a : string) :
  ~ In sep (chars a) -> Str.split sep a = [a].
Proof.
  induction a as [|c a IH]; simpl; intros H; [reflexivity|].
  destruct (Ascii.eqb_spec c sep); [intuition congruence|].
  rewrite IH; [reflexivity | tauto].
Qed.

Lemma split_at_sep (sep : ascii) (a r : string) :
  ~ In sep (chars a) ->
  Str.split sep (a +:+ String sep r) = a :: Str.split sep r.
Proof.
  induction a as [|c a IH]; simpl; intros H.
  - now rewrite Ascii.eqb_refl.
  - destruct (Ascii.eqb_spec c sep); [intuition congruence|].
    rewrite IH; [reflexivity | tauto].
Qed.

Lemma first_line_split (b line : string) :
  FirstLine b line -> hd EmptyString (Str.split Str.nl_char b) = line.
Proof.
  intros [Hfree [-> | [rest ->]]].
  - now rewrite split_no_sep.
  - unfold Str.nl. simpl (String _ "" +:+ rest). now rewrite split_at_sep.
Qed.

Lemma split_first_line (b : string) :
  FirstLine b (hd EmptyString (Str.split Str.nl_char b)).
Proof.
  induction b as [|c b [Hfree IH]]; simpl.
  - split; [simpl; tauto | now left].
  - destruct (Ascii.eqb_spec c Str.nl_char) as [->|Hc]; simpl.
    + split; [tauto|]. right. exists b. reflexivity.
    + destruct (Str.split Str.nl_char b) as [|w ws]; simpl in *.
      * split; [simpl; intuition congruence|].
        destruct IH as [-> | [rest ->]]; [now left|]. right. now exists rest.
      * split; [simpl; intuition congruence|].
        destruct IH as [-> | [rest ->]]; [now left|]. right. now exists rest.
Qed.

(** ** Entries *)

Lemma of_uint_digits (d : Decimal.uint) :
  ~ In Str.nl_char (chars (NilEmpty.string_of_uint d)).
Proof.
  induction d; simpl; [tauto|..];
    (intros [H | H]; [discriminate H | exact (IHd H)]).
Qed.

Lemma of_int_one_line (n : Z) : ~ In Str.nl_char (chars (Str.of_int n)).
Proof.
  unfold Str.of_int, NilZero.string_of_int, NilZero.string_of_uint.
  destruct (Z.to_int n) as [d|d].
  - destruct d; try apply of_uint_digits. simpl. intros [H | []]. discriminate H.
  - simpl. intros [H | H]; [discriminate H|]. revert H.
    destruct d; try apply of_uint_digits. simpl. intros [H | []]. discriminate H.
Qed.

Lemma description_cases (pr : PullRequest) :
  (body pr = None \/ body pr = Some "" -> description pr = title pr)
  /\ (forall b, body pr = Some b -> b <> "" ->
        description pr
        = Re.sub_links (hd EmptyString (Str.split Str.nl_char b))).
Proof.
  unfold description. split.
  - now intros [-> | ->].
  - intros b -> Hb. destruct b; [congruence | reflexivity].
Qed.

Lemma description_one_line (pr : PullRequest) :
  ~ In Str.nl_char (chars (title pr)) ->
  ~ In Str.nl_char (chars (description pr)).
Proof.
  intros Ht. destruct (description_cases pr) as [Hnone Hsome].
  destruct (body pr) as [[|c b]|] eqn:Hb.
  - rewrite Hnone; auto.
  - rewrite (Hsome _ eq_refl) by discriminate. intros H.
    apply (stripped_chars _ _ _ (sub_links_stripped _)) in H.
    now apply (split_first_line (String c b)).
  - rewrite Hnone; auto.
Qed.

(** C9. The entry of a pull request is the line
    [- <description> (#<number>) - @<author>]: the description is the title
    when the pull request has no body (none, or an empty one), and otherwise
    the first line of the body with every Markdown link [[text](url)]
    replaced by its text; the entry holds no newline as long as the title
    and the author's login hold none. *)
Theorem format_changelog_entry_line (pr : PullRequest) :
  exists d,
    format_changelog_entry pr
    = "- " +:+ d +:+ " (#" +:+ Str.of_int (number pr) +:+ ") - @"
      +:+ user_login pr
    /\ (body pr = None \/ body pr = Some "" -> d = title pr)
    /\ (forall b line, body pr = Some b -> b <> "" -> FirstLine b line ->
          LinksStripped line d
          /\ forall d', LinksStripped line d' -> d' = d)
    /\ (~ In Str.nl_char (chars (title pr)) ->
        ~ In Str.nl_char (chars (user_login pr)) ->
        ~ In Str.nl_char (chars (format_changelog_entry pr))).
Proof.
  exists (description pr). destruct (description_cases pr) as [Hnone Hsome].
  split; [|split; [exact Hnone | split]].
  - reflexivity.
  - intros b line Hb Hne Hline. rewrite (Hsome b Hb Hne).
    rewrite (first_line_split _ _ Hline).
    split; [apply sub_links_stripped | apply stripped_sub_links].
  - intros Ht Hu. unfold format_changelog_entry.
    rewrite !chars_append, !in_app_iff. simpl.
    pose proof (description_one_line pr Ht).
    pose proof (of_int_one_line (number pr)).
    intuition discriminate.
Qed.

(** ** Finding the blank-line boundary *)

Lemma index_of_unfold (k s : string) :
  Str.index_of k s =
  if String.prefix k s then Some O
  else match s with
       | EmptyString => None
       | String _ s' => option_map S (Str.index_of k s')
       end.
Proof. destruct s; reflexivity. Qed.

Lemma index_of_None (k s : string) :
  Str.index_of k s = None <-> ~ Infix k s.
Proof.
  rewrite <- contains_iff.
  induction s as [|c s IH]; rewrite index_of_unfold, contains_unfold;
    destruct (String.prefix k _); try (split; congruence).
  destruct (Str.index_of k s); simpl; rewrite <- IH; split; congruence.
Qed.

Lemma index_of_Some (k s : string) (i : nat) :
  Str.index_of k s = Some i ->
  exists a b, s = a +:+ k +:+ b /\ String.length a = i /\
    forall a' b', s = a' +:+ k +:+ b' -> (i <= String.length a')%nat.
Proof.
  revert i. induction s as [|c s IH]; intros i; rewrite index_of_unfold;
    destruct (String.prefix k _) eqn:Hp.
  - intros [= <-]. apply prefix_iff in Hp as [r Hr].
    exists "", r. repeat split; [exact Hr | intros; lia].
  - discriminate.
  - intros [= <-]. apply prefix_iff in Hp as [r Hr].
    exists "", r. repeat split; [exact Hr | intros; lia].
  - destruct (Str.index_of k s) as [j|]; [|discriminate]. intros [= <-].
    destruct (IH j eq_refl) as (a & b & -> & Ha & Hmin).
    exists (String c a), b. repeat split; [simpl; now rewrite Ha|].
    intros a' b' H. destruct a' as [|x a'].
    + assert (String.prefix k (String c (a +:+ k +:+ b)) = true)
        by (apply prefix_iff; eauto). congruence.
    + simpl in H. injection H as _ H. simpl. apply Hmin in H. lia.
Qed.

Lemma header_split_index (doc header rest : string) :
  HeaderSplit doc header rest ->
  Str.index_of blank_line doc = Some (String.length header).
Proof.
  intros [Hdoc Hmin].
  destruct (Str.index_of blank_line doc) as [i|] eqn:Hi.
  - destruct (index_of_Some _ _ _ Hi) as (a & b & Ha & Hl & Hmin').
    f_equal. apply Nat.le_antisymm.
    + now apply (Hmin' header rest).
    + rewrite <- Hl. now apply (Hmin a b).
  - apply index_of_None in Hi. destruct Hi. now exists header, rest.
Qed.

(** ** Splicing *)

Lemma clamp_inside (s : string) (n : nat) :
  (n <= String.length s)%nat -> Str.clamp s (Z.of_nat n) = n.
Proof.
  intros H. unfold Str.clamp.
  destruct (Z.ltb_spec (Z.of_nat n) 0); [lia|].
  rewrite Z.min_l by lia. apply Nat2Z.id.
Qed.

(** With a blank-line boundary, the section goes right after the first
    one, and the document is otherwise untouched. *)
Lemma splice_after_header (doc header rest new_section : string) :
  HeaderSplit doc header rest ->
  splice doc new_section
  = (header +:+ blank_line) +:+ new_section +:+ rest.
Proof.
  intros H. pose proof (header_split_index _ _ _ H) as Hi.
  destruct H as [Hdoc _]. unfold splice, Str.find.
  change (Str.nl +:+ Str.nl) with blank_line. rewrite Hi.
  replace (Z.of_nat (String.length header) + 2)
    with (Z.of_nat (String.length (header +:+ blank_line)))
    by (rewrite length_append; simpl; lia).
  rewrite <- append_assoc in Hdoc. subst doc.
  unfold Str.slice_to, Str.slice_from.
  rewrite clamp_inside by (rewrite (length_append _ rest); lia).
  now rewrite take_append, drop_append.
Qed.

(** Without one, [find] answers -1 and the section goes after the first
    character. *)
Lemma splice_without_blank_line (c : ascii) (rest new_section : string) :
  ~ Infix blank_line (String c rest) ->
  splice (String c rest) new_section = String c (new_section +:+ rest).
Proof.
  intros H. apply index_of_None in H. unfold splice, Str.find.
  change (Str.nl +:+ Str.nl) with blank_line. rewrite H.
  change (-1 + 2) with (Z.of_nat 1).
  unfold Str.slice_to, Str.slice_from.
  rewrite clamp_inside by (simpl; lia). reflexivity.
Qed.

Lemma splice_empty (new_section : string) : splice "" new_section = new_section.
Proof. unfold splice. simpl. apply append_nil_r. Qed.

(** ** Selection *)

Lemma dt_ge_lt (a b : datetime) : dt_ge a b = negb (dt_lt a b).
Proof. unfold dt_ge, dt_lt. now destruct (lex_compare _ _). Qed.

(** [get_merged_prs] keeps exactly the pull requests that qualify, in the
    order of the listing. *)
Lemma get_merged_prs_In (pulls : list PullRequest) (cutoff : option datetime)
    (pr : PullRequest) :
  In pr (get_merged_prs pulls cutoff) <-> In pr pulls /\ Qualifies cutoff pr.
Proof.
  unfold get_merged_prs, Qualifies. rewrite List.filter_In, andb_true_iff.
  destruct cutoff as [since|].
  - rewrite dt_ge_lt, negb_true_iff. tauto.
  - tauto.
Qed.

Lemma get_merged_prs_nil (pulls : list PullRequest) (cutoff : option datetime) :
  (forall pr, In pr pulls -> ~ Qualifies cutoff pr) ->
  get_merged_prs pulls cutoff = [].
Proof.
  intros H. destruct (get_merged_prs pulls cutoff) as [|pr prs] eqn:E;
    [reflexivity|].
  assert (Hin : In pr (get_merged_prs pulls cutoff)) by (rewrite E; now left).
  apply get_merged_prs_In in Hin as [Hin Hq]. now destruct (H pr Hin).
Qed.

Lemma get_merged_prs_no_cutoff (pulls : list PullRequest) :
  get_merged_prs pulls None = List.filter merged pulls.
Proof.
  unfold get_merged_prs. apply List.filter_ext. intros pr. apply andb_true_r.
Qed.

(** ** The cutoff *)

Lemma findall_dates_skip_free (pre rest : string) :
  DateFree pre rest ->
  Re.findall_dates (pre +:+ rest) = Re.findall_dates rest.
Proof.
  unfold Re.findall_dates. induction pre as [|c pre IH]; intros H;
    [reflexivity|].
  cbn [String.append Re.findall_dates_from].
  change (String c (pre +:+ rest)) with (String c pre +:+ rest).
  rewrite (H "" (String c pre)) by (reflexivity || discriminate).
  apply IH. intros a b -> Hb. apply (H (String c a) b); [reflexivity | exact Hb].
Qed.

Lemma findall_dates_at (s tok : string) :
  Re.date_at s = Some tok -> exists more, Re.findall_dates s = tok :: more.
Proof.
  unfold Re.findall_dates. destruct s as [|c s]; [discriminate|].
  cbn [Re.findall_dates_from]. intros ->. eauto.
Qed.

(** The first date token of a document: the leftmost match of the date
    pattern. *)
Lemma findall_dates_first (pre tok post : string) :
  DateFree pre (tok +:+ post) ->
  Re.date_at (tok +:+ post) = Some tok ->
  exists more, Re.findall_dates (pre +:+ tok +:+ post) = tok :: more.
Proof.
  intros Hfree Hat. rewrite findall_dates_skip_free by exact Hfree.
  now apply findall_dates_at.
Qed.

Lemma findall_dates_none (s : string) :
  DateFree s "" -> Re.findall_dates s = [].
Proof.
  intros H. rewrite <- (append_nil_r s), findall_dates_skip_free by exact H.
  reflexivity.
Qed.

Lemma read_changelog_cases (content : string) :
  match Re.findall_dates content with
  | [] => read_changelog (Some content) = Ok (content, None)
  | first :: _ =>
      match strptime first with
      | Ok last_update =>
          read_changelog (Some content) = Ok (content, Some last_update)
      | Raise e => read_changelog (Some content) = Raise e
      end
  end.
Proof.
  unfold read_changelog. destruct (Re.findall_dates content) as [|first more];
    [reflexivity|]. now destruct (strptime first).
Qed.

(** The cutoff is midnight of the first date token of the document. *)
Lemma read_changelog_first_date (pre tok post : string) (d : datetime) :
  DateFree pre (tok +:+ post) ->
  Re.date_at (tok +:+ post) = Some tok ->
  strptime tok = Ok d ->
  read_changelog (Some (pre +:+ tok +:+ post))
  = Ok (pre +:+ tok +:+ post, Some d).
Proof.
  intros Hfree Hat Hd.
  destruct (findall_dates_first pre tok post Hfree Hat) as [more Hall].
  pose proof (read_changelog_cases (pre +:+ tok +:+ post)) as H.
  now rewrite Hall, Hd in H.
Qed.

(** A document without a date token is read as a new one: no cutoff. *)
Lemma read_changelog_no_date (content : string) :
  DateFree content "" -> read_changelog (Some content) = Ok (content, None).
Proof.
  intros Hfree. pose proof (read_changelog_cases content) as H.
  now rewrite (findall_dates_none _ Hfree) in H.
Qed.

(** ** Runs *)

Lemma update_changelog_no_changes (current_date output_file : string)
    (pulls : list PullRequest) (file : option string)
    (content : string) (cutoff : option datetime) :
  read_changelog file = Ok (content, cutoff) ->
  get_merged_prs pulls cutoff = [] ->
  update_changelog current_date output_file pulls file
  = Ok (mk_run file no_changes).
Proof. unfold update_changelog. intros -> H. cbn [bind]. now rewrite H. Qed.

Lemma update_changelog_writes (current_date output_file : string)
    (pulls : list PullRequest) (file : option string)
    (content : string) (cutoff : option datetime) :
  read_changelog file = Ok (content, cutoff) ->
  get_merged_prs pulls cutoff <> [] ->
  exists categorized_prs,
    group_prs (get_merged_prs pulls cutoff) ∅ = Ok categorized_prs /\
    groups_of (get_merged_prs pulls cutoff) categorized_prs /\
    update_changelog current_date output_file pulls file
    = Ok (mk_run (Some (splice content
                          (render_section current_date categorized_prs)))
                 (updated output_file)).
Proof.
  unfold update_changelog. intros -> Hne. cbn [bind].
  remember (get_merged_prs pulls cutoff) as prs eqn:E. clear E.
  destruct (group_prs_groups prs [] ∅ groups_of_empty) as (d & Hg & Hd).
  exists d. split; [exact Hg|]. split; [exact Hd|].
  destruct prs as [|pr prs]; [congruence|]. now rewrite Hg.
Qed.

(** ** What a run of [update_changelog] writes *)

Lemma single_pr_blocks (pr : PullRequest) :
  Str.concat (map (category_block [pr]) categories)
  = header_of (category_of pr) +:+ blank_line
    +:+ format_changelog_entry pr +:+ blank_line.
Proof.
  destruct (categorize_pr_total pr) as [_ Hin].
  unfold category_block, in_category, header_of.
  cbn [map categories fst snd List.filter].
  set (entry := format_changelog_entry).
  change category_keys
    with ["feature"; "bug"; "docs"; "refactor"; "test"; "chore"; "breaking"]
    in Hin.
  cbn [In] in Hin.
  repeat (destruct Hin as [<- | Hin];
          [simpl; rewrite ?append_assoc, ?append_nil_r; reflexivity|]).
  destruct Hin.
Qed.

Lemma header_split_of_index (doc : string) (i : nat) :
  Str.index_of blank_line doc = Some i ->
  HeaderSplit doc (Str.take i doc) (Str.drop (i + 2) doc).
Proof.
  intros Hi. destruct (index_of_Some _ _ _ Hi) as (a & b & -> & <- & Hmin).
  rewrite take_append.
  replace (String.length a + 2)%nat with (String.length (a +:+ blank_line))
    by (rewrite length_append; reflexivity).
  rewrite <- append_assoc, drop_append, append_assoc.
  split; [reflexivity | exact Hmin].
Qed.

Lemma default_content_split :
  HeaderSplit default_content "# Changelog"
    ("All notable changes to this project will be documented in this file."
     +:+ blank_line).
Proof.
  assert (Hi : Str.index_of blank_line default_content = Some 11%nat)
    by reflexivity.
  exact (header_split_of_index _ _ Hi).
Qed.

(** C2, as the code has it.  Neither an existing empty file nor a missing
    one gives a cutoff, so every merged pull request is selected.  Only a
    missing file gets the default header: the section is then spliced in
    after the title line and its blank line.  For an existing empty file the
    output is the section alone.  With one merged pull request the section
    is the dated heading and exactly one category block. *)
Theorem update_of_empty_or_missing_file
    (current_date output_file : string) (pulls : list PullRequest) :
  read_changelog (Some "") = Ok ("", None)
  /\ read_changelog None = Ok (default_content, None)
  /\ get_merged_prs pulls None = List.filter merged pulls
  /\ (List.filter merged pulls <> [] ->
      exists categorized_prs,
        group_prs (List.filter merged pulls) ∅ = Ok categorized_prs /\
        update_changelog current_date output_file pulls (Some "")
        = Ok (mk_run (Some (render_section current_date categorized_prs))
                     (updated output_file)) /\
        update_changelog current_date output_file pulls None
        = Ok (mk_run
                (Some (("# Changelog" +:+ blank_line)
                       +:+ render_section current_date categorized_prs
                       +:+ "All notable changes to this project will be documented in this file."
                       +:+ blank_line))
                (updated output_file)))
  /\ (forall pr, merged pr = true ->
      update_changelog current_date output_file [pr] (Some "")
      = Ok (mk_run
              (Some (dated_heading current_date
                     +:+ header_of (category_of pr) +:+ blank_line
                     +:+ format_changelog_entry pr +:+ blank_line))
              (updated output_file))).
Proof.
  split; [reflexivity|]. split; [reflexivity|].
  split; [apply get_merged_prs_no_cutoff|]. split.
  - intros Hne. rewrite <- get_merged_prs_no_cutoff in Hne |- *.
    destruct (update_changelog_writes current_date output_file pulls
                (Some "") "" None eq_refl Hne) as (d & Hg & _ & Hempty).
    destruct (update_changelog_writes current_date output_file pulls
                None default_content None eq_refl Hne) as (d' & Hg' & _ & Hnew).
    assert (d' = d) by congruence. subst d'.
    exists d. split; [exact Hg|]. split.
    + now rewrite Hempty, splice_empty.
    + now rewrite Hnew, (splice_after_header _ _ _ _ default_content_split).
  - intros pr Hm.
    assert (Hsel : get_merged_prs [pr] None = [pr])
      by (unfold get_merged_prs; simpl; now rewrite Hm).
    destruct (update_changelog_writes current_date output_file [pr]
                (Some "") "" None eq_refl) as (d & Hg & Hd & ->);
      [rewrite Hsel; discriminate|].
    rewrite Hsel in Hd. rewrite splice_empty. unfold render_section.
    rewrite (render_categories_blocks [pr]) by exact Hd.
    now rewrite single_pr_blocks.
Qed.

(** C2 fails as stated: an existing empty file gets no header.  For
    [pr_caching] the output is the dated section alone, and the title line
    of the default header occurs nowhere in it. *)
Lemma empty_file_gets_no_header_counterexample :
  update_changelog "2024-01-01" "CHANGELOG.md" [pr_caching] (Some "")
  = Ok (mk_run (Some caching_section) (updated "CHANGELOG.md"))
  /\ Str.contains "# Changelog" caching_section = false
  /\ String.prefix default_content caching_section = false.
Proof. repeat split; vm_compute; reflexivity. Qed.

(** C3, as the code has it.  A second run with the same pull requests
    changes nothing when its cutoff, the first date of the document the first
    run left, is strictly later than the merge time of every merged pull
    request: a pull request merged exactly at the cutoff is selected
    again. *)
Theorem second_run_is_noop
    (date1 date2 output_file : string) (pulls : list PullRequest)
    (file : option string) (first : run) (doc : string) (cutoff : datetime) :
  update_changelog date1 output_file pulls file = Ok first ->
  read_changelog (file_after first) = Ok (doc, Some cutoff) ->
  (forall pr, In pr pulls -> merged pr = true ->
              dt_lt (merged_at pr) cutoff = true) ->
  update_changelog date2 output_file pulls (file_after first)
  = Ok (mk_run (file_after first) no_changes).
Proof.
  intros _ Hread Hold.
  apply (update_changelog_no_changes _ _ _ _ doc (Some cutoff) Hread).
  apply get_merged_prs_nil. intros pr Hin [Hm Hq].
  rewrite (Hold pr Hin Hm) in Hq. discriminate.
Qed.

Lemma second_run_is_noop_witness :
  update_changelog "2024-01-01" "CHANGELOG.md" [pr_bug_critical; pr_docs] None
  = Ok (mk_run (Some after_new_year_run) (updated "CHANGELOG.md"))
  /\ update_changelog "2024-01-02" "CHANGELOG.md" [pr_bug_critical; pr_docs]
       (Some after_new_year_run)
     = Ok (mk_run (Some after_new_year_run) no_changes).
Proof.
  assert (Hfirst :
    update_changelog "2024-01-01" "CHANGELOG.md" [pr_bug_critical; pr_docs] None
    = Ok (mk_run (Some after_new_year_run) (updated "CHANGELOG.md")))
    by (vm_compute; reflexivity).
  split; [exact Hfirst|].
  apply (second_run_is_noop "2024-01-01" "2024-01-02" "CHANGELOG.md"
           [pr_bug_critical; pr_docs] None
           (mk_run (Some after_new_year_run) (updated "CHANGELOG.md"))
           after_new_year_run midnight_2024_01_01 Hfirst).
  - vm_compute; reflexivity.
  - intros pr [<- | [<- | []]] _; reflexivity.
Defined.

(** C3 fails as stated: [pr_at_midnight] was merged exactly at the cutoff
    that the first run leaves in the document, so the cutoff is not earlier
    than any merge time, and yet the second run selects the pull request
    again and writes a longer document. *)
Lemma second_run_at_cutoff_counterexample :
  update_changelog "2024-01-01" "CHANGELOG.md" [pr_at_midnight] None
  = Ok (mk_run (Some after_midnight_run) (updated "CHANGELOG.md"))
  /\ read_changelog (Some after_midnight_run)
     = Ok (after_midnight_run, Some midnight_2024_01_01)
  /\ (forall pr, In pr [pr_at_midnight] ->
                 dt_ge midnight_2024_01_01 (merged_at pr) = true)
  /\ exists doc,
       update_changelog "2024-01-01" "CHANGELOG.md" [pr_at_midnight]
         (Some after_midnight_run)
       = Ok (mk_run (Some doc) (updated "CHANGELOG.md"))
       /\ (String.length after_midnight_run < String.length doc)%nat.
Proof.
  split; [vm_compute; reflexivity|]. split; [vm_compute; reflexivity|]. split.
  - intros pr [<- | []]. reflexivity.
  - eexists. split; [vm_compute; reflexivity|]. vm_compute. lia.
Qed.

(** X11. The splice of a run that writes, for a document with a
    blank-line boundary: the header up to and including its first blank-line
    boundary, the new section, and the rest of the document as it was. *)
Lemma update_splices_after_header
    (current_date output_file : string) (pulls : list PullRequest)
    (doc header rest : string) (cutoff : option datetime) :
  read_changelog (Some doc) = Ok (doc, cutoff) ->
  get_merged_prs pulls cutoff <> [] ->
  HeaderSplit doc header rest ->
  exists categorized_prs,
    group_prs (get_merged_prs pulls cutoff) ∅ = Ok categorized_prs /\
    update_changelog current_date output_file pulls (Some doc)
    = Ok (mk_run (Some ((header +:+ blank_line)
                        +:+ render_section current_date categorized_prs
                        +:+ rest))
                 (updated output_file)).
Proof.
  intros Hread Hne Hsplit.
  destruct (update_changelog_writes current_date output_file pulls
              (Some doc) doc cutoff Hread Hne) as (d & Hg & _ & ->).
  exists d. split; [exact Hg|]. now rewrite (splice_after_header _ _ _ _ Hsplit).
Qed.

(** C4 at a document without a blank line, the one-line file
    [# Changelog]: the title is cut after its first character and the section
    lands inside it, so the output is not the document up to a header
    boundary, then the section, then the rest. *)
Theorem update_cuts_title_without_blank_line :
  Str.contains blank_line title_only = false
  /\ update_changelog "2024-01-01" "CHANGELOG.md" [pr_caching]
       (Some title_only)
     = Ok (mk_run (Some ("#" +:+ caching_section +:+ " Changelog" +:+ Str.nl))
                  (updated "CHANGELOG.md"))
  /\ String.prefix "# Changelog"
       ("#" +:+ caching_section +:+ " Changelog" +:+ Str.nl)
     = false.
Proof. repeat split; vm_compute; reflexivity. Qed.

(** C5 at a document whose first date-shaped text is [2023-02-29]: the
    date pattern matches it, [strptime] rejects it, and the run ends in
    [ValueError] instead of using a cutoff or treating the document as
    new. *)
Theorem update_raises_on_impossible_date :
  Re.findall_dates changelog_2023_02_29 = ["2023-02-29"]
  /\ strptime "2023-02-29" = Raise ValueError
  /\ update_changelog "2024-03-01" "CHANGELOG.md" [pr_caching]
       (Some changelog_2023_02_29)
     = Raise ValueError.
Proof. repeat split; vm_compute; reflexivity. Qed.

(** When the changelog can be read and no pull request of the listing
    qualifies, the run writes nothing: the file is what it was, the run
    reports that there is nothing to add, and it ends normally. *)
Theorem no_qualifying_pr_no_write
    (current_date output_file : string) (pulls : list PullRequest)
    (file : option string) (content : string) (cutoff : option datetime) :
  read_changelog file = Ok (content, cutoff) ->
  (forall pr, In pr pulls -> ~ Qualifies cutoff pr) ->
  update_changelog current_date output_file pulls file
  = Ok (mk_run file "No new changes to add to changelog.").
Proof.
  intros Hread Hnone.
  apply (update_changelog_no_changes _ _ _ _ content cutoff Hread).
  now apply get_merged_prs_nil.
Qed.

Lemma no_qualifying_pr_no_write_witness :
  update_changelog "2024-01-05" "CHANGELOG.md" [pr_bug_critical; pr_docs]
    (Some changelog_2024_01_01)
  = Ok (mk_run (Some changelog_2024_01_01)
               "No new changes to add to changelog.").
Proof.
  apply (no_qualifying_pr_no_write "2024-01-05" "CHANGELOG.md"
           [pr_bug_critical; pr_docs] (Some changelog_2024_01_01)
           changelog_2024_01_01 (Some midnight_2024_01_01)).
  - vm_compute; reflexivity.
  - intros pr [<- | [<- | []]] [_ Hq]; discriminate Hq.
Defined.

(** C6 at a document whose first date-shaped text is [2023-02-29], with
    nothing to add: the listing is empty, or holds only a pull request
    that was closed without being merged, so no pull request qualifies
    whatever the cutoff, and yet the run does not report that there is
    nothing to add and end normally: [strptime] is reached before the
    selection and the run ends in [ValueError]. *)
Theorem update_raises_with_nothing_to_add :
  (forall cutoff pr, In pr [pr_closed_unmerged] -> ~ Qualifies cutoff pr)
  /\ get_merged_prs [pr_closed_unmerged] None = []
  /\ update_changelog "2024-03-01" "CHANGELOG.md" [pr_closed_unmerged]
       (Some changelog_2023_02_29)
     = Raise ValueError
  /\ update_changelog "2024-03-01" "CHANGELOG.md" []
       (Some changelog_2023_02_29)
     = Raise ValueError.
Proof.
  split; [|repeat split; vm_compute; reflexivity].
  intros cutoff pr [<- | []] [Hm _]. discriminate Hm.
Qed.

(** C10. In a non-empty document without a blank-line boundary, a run that
    writes puts the new section right after the first character: [find]
    answers -1, the header end is 1, and the first line is cut in two. *)
Theorem update_without_blank_line
    (current_date output_file : string) (pulls : list PullRequest)
    (c : ascii) (rest : string) (cutoff : option datetime) :
  ~ Infix blank_line (String c rest) ->
  read_changelog (Some (String c rest)) = Ok (String c rest, cutoff) ->
  get_merged_prs pulls cutoff <> [] ->
  Str.find (String c rest) blank_line + 2 = 1
  /\ exists categorized_prs,
       group_prs (get_merged_prs pulls cutoff) ∅ = Ok categorized_prs /\
       update_changelog current_date output_file pulls (Some (String c rest))
       = Ok (mk_run
               (Some (String c (render_section current_date categorized_prs
                                +:+ rest)))
               (updated output_file)).
Proof.
  intros Hfree Hread Hne. split.
  - unfold Str.find. apply index_of_None in Hfree. now rewrite Hfree.
  - destruct (update_changelog_writes current_date output_file pulls
                (Some (String c rest)) (String c rest) cutoff Hread Hne)
      as (d & Hg & _ & ->).
    exists d. split; [exact Hg|].
    now rewrite (splice_without_blank_line _ _ _ Hfree).
Qed.

Lemma update_without_blank_line_witness :
  Str.find "# Changelog" blank_line + 2 = 1
  /\ exists categorized_prs,
       group_prs (get_merged_prs [pr_caching] None) ∅ = Ok categorized_prs /\
       update_changelog "2024-01-01" "CHANGELOG.md" [pr_caching]
         (Some "# Changelog")
       = Ok (mk_run
               (Some (String "#" (render_section "2024-01-01" categorized_prs
                                  +:+ " Changelog")))
               (updated "CHANGELOG.md")).
Proof.
  apply (update_without_blank_line "2024-01-01" "CHANGELOG.md" [pr_caching]
           "#"%char " Changelog" None).
  - rewrite <- contains_iff. vm_compute. discriminate.
  - vm_compute; reflexivity.
  - vm_compute. discriminate.
Defined.

(** ** The scenarios of the specification *)

Example caching_is_a_feature : categorize_pr pr_caching = Ok "feature".
Proof. reflexivity. Qed.

Example bug_label_beats_title : categorize_pr pr_bug_critical = Ok "bug".
Proof. reflexivity. Qed.

Example scoped_docs_title : categorize_pr pr_docs = Ok "docs".
Proof. reflexivity. Qed.

Example caching_entry :
  format_changelog_entry pr_caching
  = "- Adds an LRU cache. See docs (#7) - @alice".
Proof. reflexivity. Qed.

Example empty_body_falls_back_to_title :
  format_changelog_entry pr_docs = "- docs(readme): fix typos (#5) - @carol".
Proof. reflexivity. Qed.

(** * Further properties *)

(** ** Classification *)

Lemma category_of_labels_lower (ls1 ls2 : list string) :
  map Str.lower ls1 = map Str.lower ls2 ->
  category_of_labels ls1 = category_of_labels ls2.
Proof.
  revert ls2. induction ls1 as [|l1 ls1 IH]; intros [|l2 ls2] H;
    try discriminate; [reflexivity|].
  injection H as Hl Hls. rewrite !category_of_labels_cons, Hl.
  now rewrite (IH ls2 Hls).
Qed.

(** X1. The category is read off the lower-cased labels and the title and
    off nothing else: two pull requests whose labels agree up to case and
    whose titles are equal get the same category, whatever their bodies,
    authors, numbers and merge states. *)
Theorem categorize_pr_reads_labels_and_title (pr1 pr2 : PullRequest) :
  map Str.lower (labels pr1) = map Str.lower (labels pr2) ->
  title pr1 = title pr2 ->
  categorize_pr pr1 = categorize_pr pr2.
Proof.
  intros Hl Ht. unfold categorize_pr.
  now rewrite (category_of_labels_lower _ _ Hl), Ht.
Qed.

Lemma categorize_pr_reads_labels_and_title_witness :
  categorize_pr pr_upper_label = categorize_pr pr_lower_label.
Proof.
  apply (categorize_pr_reads_labels_and_title pr_upper_label pr_lower_label);
    reflexivity.
Defined.

(** X2. The title decides only through its first word, spelled exactly as
    one of the seven commit types: without a label that mentions a category,
    a title whose leading word is anything else (a capital, a longer word
    such as [feature], no word at all) is filed under [chore]. *)
Theorem title_type_is_the_exact_first_word (pr : PullRequest) :
  unlabelled (labels pr) ->
  (forall tok, In tok Re.commit_types ->
               Re.leading_word (title pr) <> Some tok) ->
  categorize_pr pr = Ok "chore".
Proof.
  intros Hu Hw. apply category_of_labels_None in Hu.
  unfold categorize_pr. rewrite Hu.
  destruct (Re.conventional_commit (title pr)) eqn:Hm; [|reflexivity].
  apply conventional_commit_iff in Hm as [tok Htok].
  pose proof (leading_word_of_title _ _ Htok) as Hlead.
  destruct Htok as (_ & _ & _ & Hin & _). now destruct (Hw tok Hin).
Qed.

Lemma title_type_is_the_exact_first_word_witness :
  categorize_pr pr_capital_feat = Ok "chore".
Proof.
  apply (title_type_is_the_exact_first_word pr_capital_feat).
  - intros l k [].
  - intros tok Hin. vm_compute in Hin. vm_compute.
    repeat (destruct Hin as [<- | Hin]; [discriminate|]). destruct Hin.
Defined.

(** ** Descriptions *)

Lemma infix_cons (k s : string) (c : ascii) :
  Infix k s -> Infix k (String c s).
Proof. intros (a & b & ->). now exists (String c a), b. Qed.

Lemma sub_links_without_link (s : string) :
  ~ Infix "](" s -> Re.sub_links s = s.
Proof.
  induction s as [|c s IH]; intros Hfree; [reflexivity|].
  assert (Hn : Re.link_at (String c s) = None).
  { destruct (Re.link_at (String c s)) as [[text len]|] eqn:Hl; [|reflexivity].
    apply link_at_Some in Hl as (url & rest & Hs & _).
    destruct Hfree. exists ("[" +:+ text), (url +:+ ")" +:+ rest).
    rewrite Hs. now rewrite !append_assoc. }
  rewrite (sub_links_char _ _ Hn). f_equal. apply IH.
  intros H. apply Hfree. now apply infix_cons.
Qed.

(** X3. A first line in which no text closes on an address, that is
    without the two characters [](], is the description as it stands:
    brackets and parentheses on their own are left alone, and the later lines
    of the body are not read. *)
Theorem description_without_link_verbatim
    (pr : PullRequest) (b line : string) :
  body pr = Some b -> b <> "" -> FirstLine b line ->
  ~ Infix "](" line ->
  description pr = line.
Proof.
  intros Hb Hne Hline Hfree. destruct (description_cases pr) as [_ Hsome].
  rewrite (Hsome b Hb Hne), (first_line_split _ _ Hline).
  now apply sub_links_without_link.
Qed.

Lemma description_without_link_verbatim_witness :
  description pr_plain_body = "Guard the [config] lookup (see notes)".
Proof.
  apply (description_without_link_verbatim pr_plain_body
           ("Guard the [config] lookup (see notes)" +:+ Str.nl
            +:+ "Details in [the wiki](http://wiki)")).
  - reflexivity.
  - discriminate.
  - split.
    + vm_compute. intuition discriminate.
    + right. eexists. reflexivity.
  - rewrite <- contains_iff. vm_compute. discriminate.
Defined.

Lemma stripped_length (s out : string) :
  LinksStripped s out -> (String.length out <= String.length s)%nat.
Proof.
  induction 1 as [|s text rest out Hl _ IH|c s out _ _ IH]; simpl.
  - lia.
  - destruct Hl as (url & -> & _).
    repeat (rewrite ?length_append; cbn [String.append String.length]). lia.
  - lia.
Qed.

(** X4. Stripping the links only takes characters away: the description
    of a pull request with a body is no longer than the first line of the
    body, and every character of it occurs in that line. *)
Theorem description_only_removes
    (pr : PullRequest) (b line : string) :
  body pr = Some b -> b <> "" -> FirstLine b line ->
  (String.length (description pr) <= String.length line)%nat
  /\ forall c, In c (chars (description pr)) -> In c (chars line).
Proof.
  intros Hb Hne Hline. destruct (description_cases pr) as [_ Hsome].
  rewrite (Hsome b Hb Hne), (first_line_split _ _ Hline).
  pose proof (sub_links_stripped line) as H. split.
  - now apply stripped_length.
  - intros c. now apply stripped_chars.
Qed.

Lemma description_only_removes_witness :
  (String.length (description pr_caching)
   <= String.length "Adds an LRU cache. See [docs](http://x)")%nat
  /\ forall c, In c (chars (description pr_caching)) ->
               In c (chars "Adds an LRU cache. See [docs](http://x)").
Proof.
  apply (description_only_removes pr_caching
           "Adds an LRU cache. See [docs](http://x)").
  - reflexivity.
  - discriminate.
  - split; [vm_compute; intuition discriminate | now left].
Defined.

(** ** Grouping and listing *)

Lemma in_category_cons (pr : PullRequest) (prs : list PullRequest) (c : string) :
  in_category (pr :: prs) c =
  if String.eqb (category_of pr) c then pr :: in_category prs c
  else in_category prs c.
Proof. reflexivity. Qed.

Lemma groups_skip (pr : PullRequest) (prs : list PullRequest)
    (keys : list string) :
  ~ In (category_of pr) keys ->
  map (in_category (pr :: prs)) keys = map (in_category prs) keys.
Proof.
  intros H. apply map_ext_in. intros c Hc. rewrite in_category_cons.
  destruct (String.eqb_spec (category_of pr) c); [now subst | reflexivity].
Qed.

Lemma groups_cons (pr : PullRequest) (prs : list PullRequest)
    (keys : list string) :
  List.NoDup keys -> In (category_of pr) keys ->
  Permutation (List.concat (map (in_category (pr :: prs)) keys))
              (pr :: List.concat (map (in_category prs) keys)).
Proof.
  induction keys as [|k keys IH]; intros Hnd Hin; [destruct Hin|].
  apply List.NoDup_cons_iff in Hnd as [Hk Hnd].
  cbn [map List.concat]. rewrite in_category_cons.
  destruct (String.eqb_spec (category_of pr) k) as [E|E].
  - rewrite groups_skip by now rewrite E. reflexivity.
  - destruct Hin as [Hin|Hin]; [congruence|].
    rewrite (IH Hnd Hin). symmetry. apply Permutation_middle.
Qed.

Lemma groups_partition (prs : list PullRequest) :
  Permutation (List.concat (map (in_category prs) category_keys)) prs.
Proof.
  induction prs as [|pr prs IH].
  - now vm_compute.
  - rewrite groups_cons.
    + now constructor.
    + unfold category_keys. cbn [map categories fst].
      repeat (constructor; [cbn [In]; intuition discriminate|]). constructor.
    + apply categorize_pr_total.
Qed.

(** X5. The grouping loop files every selected pull request under exactly
    one category: it never raises, [categorized_prs] has no empty group and
    no key outside [self.categories], each group holds pull requests of its
    own category only, and the groups taken together are the selected pull
    requests, none dropped and none repeated. *)
Theorem grouping_is_a_partition (prs : list PullRequest) :
  exists categorized_prs,
    group_prs prs ∅ = Ok categorized_prs
    /\ (forall category group,
          categorized_prs !! category = Some group ->
          In category category_keys /\ group <> []
          /\ forall pr, In pr group ->
                        In pr prs /\ categorize_pr pr = Ok category)
    /\ Permutation
         (List.concat (map (fun category =>
                              default [] (categorized_prs !! category))
                           category_keys))
         prs.
Proof.
  destruct (group_prs_groups prs [] ∅ groups_of_empty) as (d & Hg & Hd).
  cbn [app] in Hd. exists d. split; [exact Hg|]. split.
  - intros c g Hc. rewrite (Hd c) in Hc.
    destruct (in_category prs c) as [|x g'] eqn:E; [discriminate|].
    injection Hc as <-.
    assert (Hall : forall pr, In pr (x :: g') ->
                              In pr prs /\ categorize_pr pr = Ok c).
    { intros pr Hin. rewrite <- E in Hin. unfold in_category in Hin.
      apply List.filter_In in Hin as [Hin Hcat]. split; [exact Hin|].
      apply String.eqb_eq in Hcat. rewrite <- Hcat. apply categorize_pr_total. }
    split; [|split; [discriminate | exact Hall]].
    destruct (Hall x (or_introl eq_refl)) as [_ Hx].
    destruct (categorize_pr_total x) as [Hx' Hk]. congruence.
  - erewrite map_ext; [apply groups_partition|].
    intros c. simpl. rewrite (Hd c). now destruct (in_category prs c).
Qed.

Lemma infix_refl (s : string) : Infix s s.
Proof. exists "", "". simpl. now rewrite append_nil_r. Qed.

Lemma infix_append_l (k a b : string) : Infix k a -> Infix k (a +:+ b).
Proof.
  intros (x & y & ->). exists x, (y +:+ b). now rewrite !append_assoc.
Qed.

Lemma infix_append_r (k a b : string) : Infix k b -> Infix k (a +:+ b).
Proof.
  intros (x & y & ->). exists (a +:+ x), y. now rewrite !append_assoc.
Qed.

Lemma infix_concat (k s : string) (l : list string) :
  In s l -> Infix k s -> Infix k (Str.concat l).
Proof.
  induction l as [|x l IH]; intros Hin Hk; [destruct Hin|].
  cbn [Str.concat]. destruct Hin as [<-|Hin].
  - now apply infix_append_l.
  - apply infix_append_r. now apply IH.
Qed.

Lemma splice_frame (content new_section : string) :
  exists pre post,
    content = pre +:+ post /\
    splice content new_section = pre +:+ new_section +:+ post.
Proof.
  unfold splice, Str.slice_to, Str.slice_from.
  set (k := Str.clamp content _).
  exists (Str.take k content), (Str.drop k content).
  split; [symmetry; apply take_drop | reflexivity].
Qed.

Lemma header_in_categories (c : string) :
  In c category_keys -> In (c, header_of c) categories.
Proof.
  unfold category_keys. cbn [map categories fst In]. intros H.
  repeat (destruct H as [<- | H]; [vm_compute; tauto|]). destruct H.
Qed.

(** X6. No qualifying pull request is left out of a run: when the
    changelog can be read and a pull request of the listing qualifies, the
    run writes the file, and the written document holds the header of the
    pull request's category and the pull request's entry on a line of its
    own. *)
Theorem every_qualifying_pr_is_listed
    (current_date output_file : string) (pulls : list PullRequest)
    (file : option string) (content : string) (cutoff : option datetime)
    (pr : PullRequest) :
  read_changelog file = Ok (content, cutoff) ->
  In pr pulls -> Qualifies cutoff pr ->
  exists doc,
    update_changelog current_date output_file pulls file
    = Ok (mk_run (Some doc) (updated output_file))
    /\ Infix (header_of (category_of pr) +:+ blank_line) doc
    /\ Infix (format_changelog_entry pr +:+ Str.nl) doc.
Proof.
  intros Hread Hin Hq.
  assert (Hsel : In pr (get_merged_prs pulls cutoff))
    by (apply get_merged_prs_In; auto).
  assert (Hne : get_merged_prs pulls cutoff <> [])
    by (intros E; rewrite E in Hsel; destruct Hsel).
  destruct (update_changelog_writes current_date output_file pulls file
              content cutoff Hread Hne) as (d & _ & Hd & ->).
  eexists. split; [reflexivity|].
  set (prs := get_merged_prs pulls cutoff) in *.
  unfold render_section. rewrite (render_categories_blocks prs) by exact Hd.
  destruct (splice_frame content
              ((Str.nl +:+ "## [" +:+ current_date +:+ "]" +:+ Str.nl +:+ Str.nl)
               +:+ Str.concat (map (category_block prs) categories)))
    as (pre & post & _ & ->).
  assert (Hblock : forall k,
            Infix k (category_block prs
                       (category_of pr, header_of (category_of pr))) ->
            Infix k (pre +:+ ((Str.nl +:+ "## [" +:+ current_date +:+ "]"
                               +:+ Str.nl +:+ Str.nl)
                              +:+ Str.concat (map (category_block prs) categories))
                     +:+ post)).
  { intros k Hk. apply infix_append_r, infix_append_l, infix_append_r.
    apply infix_concat with
      (s := category_block prs (category_of pr, header_of (category_of pr)));
      [|exact Hk].
    apply in_map, header_in_categories, categorize_pr_total. }
  assert (Hmem : In pr (in_category prs (category_of pr))).
  { unfold in_category. apply List.filter_In.
    split; [exact Hsel | apply String.eqb_refl]. }
  split; apply Hblock; unfold category_block; cbn [fst snd];
    destruct (in_category prs (category_of pr)) as [|x g] eqn:E;
    try (now destruct Hmem).
  - change (header_of (category_of pr) +:+ blank_line)
      with (header_of (category_of pr) +:+ Str.nl +:+ Str.nl).
    rewrite <- !append_assoc. apply infix_append_l, infix_append_l.
    rewrite !append_assoc. apply infix_refl.
  - apply infix_append_r, infix_append_r, infix_append_r, infix_append_l.
    apply infix_concat with (s := format_changelog_entry pr +:+ Str.nl);
      [|apply infix_refl].
    now apply (in_map (fun p => format_changelog_entry p +:+ Str.nl)).
Qed.

Lemma every_qualifying_pr_is_listed_witness :
  exists doc,
    update_changelog "2024-01-05" "CHANGELOG.md" [pr_docs; pr_caching]
      (Some changelog_2024_01_01)
    = Ok (mk_run (Some doc) (updated "CHANGELOG.md"))
    /\ Infix (header_of (category_of pr_caching) +:+ blank_line) doc
    /\ Infix (format_changelog_entry pr_caching +:+ Str.nl) doc.
Proof.
  apply (every_qualifying_pr_is_listed "2024-01-05" "CHANGELOG.md"
           [pr_docs; pr_caching] (Some changelog_2024_01_01)
           changelog_2024_01_01 (Some midnight_2024_01_01) pr_caching).
  - vm_compute; reflexivity.
  - right; now left.
  - split; reflexivity.
Defined.

(** ** What a run keeps and when it fails *)

Lemma read_changelog_content (file : option string) (content : string)
    (cutoff : option datetime) :
  read_changelog file = Ok (content, cutoff) -> content = content_of file.
Proof.
  destruct file as [c|]; simpl.
  - destruct (Re.findall_dates c) as [|tok more]; [congruence|].
    destruct (strptime tok); simpl; congruence.
  - congruence.
Qed.

(** X7. A run never loses or reorders what the document held, with or
    without a blank line in it: either the file is left as it was and the
    run says that there is nothing to add, or the written document is the
    old content (the default document when the file did not exist) cut in two
    with the new section, which opens with the dated heading, put in
    between. *)
Theorem update_keeps_existing_content
    (current_date output_file : string) (pulls : list PullRequest)
    (file : option string) (r : run) :
  update_changelog current_date output_file pulls file = Ok r ->
  (file_after r = file /\ printed r = no_changes)
  \/ exists pre post blocks,
       content_of file = pre +:+ post
       /\ file_after r
          = Some (pre +:+ (dated_heading current_date +:+ blocks) +:+ post)
       /\ printed r = updated output_file.
Proof.
  intros Hrun.
  destruct (read_changelog file) as [[content cutoff]|e] eqn:Hread;
    [|unfold update_changelog in Hrun; rewrite Hread in Hrun; discriminate].
  pose proof (read_changelog_content _ _ _ Hread) as Hc.
  destruct (get_merged_prs pulls cutoff) as [|p prs] eqn:Hsel.
  - left. rewrite (update_changelog_no_changes _ _ _ _ _ _ Hread Hsel) in Hrun.
    injection Hrun as <-. auto.
  - right.
    destruct (update_changelog_writes current_date output_file pulls file
                content cutoff Hread) as (d & _ & Hd & Hw);
      [rewrite Hsel; discriminate|].
    rewrite Hw in Hrun. injection Hrun as <-.
    unfold render_section.
    rewrite (render_categories_blocks (get_merged_prs pulls cutoff))
      by exact Hd.
    destruct (splice_frame content
                ((Str.nl +:+ "## [" +:+ current_date +:+ "]"
                  +:+ Str.nl +:+ Str.nl)
                 +:+ Str.concat
                       (map (category_block (get_merged_prs pulls cutoff))
                            categories)))
      as (pre & post & Hsplit & ->).
    exists pre, post. eexists. rewrite <- Hc. split; [exact Hsplit|].
    split; reflexivity.
Qed.

Lemma update_keeps_existing_content_witness :
  (Some ("#" +:+ caching_section +:+ " Changelog" +:+ Str.nl) = Some title_only
   /\ updated "CHANGELOG.md" = no_changes)
  \/ exists pre post blocks,
       title_only = pre +:+ post
       /\ Some ("#" +:+ caching_section +:+ " Changelog" +:+ Str.nl)
          = Some (pre +:+ (dated_heading "2024-01-01" +:+ blocks) +:+ post)
       /\ updated "CHANGELOG.md" = updated "CHANGELOG.md".
Proof.
  apply (update_keeps_existing_content "2024-01-01" "CHANGELOG.md"
           [pr_caching] (Some title_only)
           (mk_run (Some ("#" +:+ caching_section +:+ " Changelog" +:+ Str.nl))
                   (updated "CHANGELOG.md"))).
  vm_compute; reflexivity.
Defined.

Lemma strptime_raises (tok : string) (e : exn) :
  strptime tok = Raise e -> e = ValueError.
Proof.
  unfold strptime. destruct (Re.date_at tok); [|congruence].
  destruct (String.length tok =? 10)%nat; [|congruence].
  match goal with |- context [if ?b then _ else _] => destruct b end;
    congruence.
Qed.

(** X8. The only way a run fails is a first date-shaped text that names
    no day of the calendar: the run raises exactly when the file exists, its
    content has a match of the date pattern and [strptime] rejects the first
    one; the exception is then [ValueError], whatever the listing holds.  A
    missing file, a file without such a text and the classification of the
    pull requests never make a run fail. *)
Theorem update_raises_exactly_on_bad_first_date
    (current_date output_file : string) (pulls : list PullRequest)
    (file : option string) (e : exn) :
  update_changelog current_date output_file pulls file = Raise e
  <-> e = ValueError
      /\ exists content tok more,
           file = Some content
           /\ Re.findall_dates content = tok :: more
           /\ strptime tok = Raise ValueError.
Proof.
  split.
  - intros Hrun.
    destruct (read_changelog file) as [[content cutoff]|e'] eqn:Hread.
    + exfalso.
      destruct (get_merged_prs pulls cutoff) as [|p prs] eqn:Hsel.
      * rewrite (update_changelog_no_changes _ _ _ _ _ _ Hread Hsel) in Hrun.
        discriminate.
      * destruct (update_changelog_writes current_date output_file pulls file
                    content cutoff Hread) as (d & _ & _ & Hw);
          [rewrite Hsel; discriminate|].
        rewrite Hw in Hrun. discriminate.
    + unfold update_changelog in Hrun. rewrite Hread in Hrun.
      injection Hrun as ->.
      destruct file as [content|]; [|discriminate].
      pose proof (read_changelog_cases content) as Hc.
      destruct (Re.findall_dates content) as [|tok more] eqn:Hall;
        [congruence|].
      destruct (strptime tok) as [d|e'] eqn:Htok; [congruence|].
      pose proof (strptime_raises _ _ Htok). subst e'.
      rewrite Hread in Hc. injection Hc as ->.
      split; [reflexivity|]. exists content, tok, more. auto.
  - intros (-> & content & tok & more & -> & Hall & Htok).
    pose proof (read_changelog_cases content) as Hc.
    rewrite Hall, Htok in Hc.
    unfold update_changelog. now rewrite Hc.
Qed.

(** ** Cutoffs *)

Lemma lex_compare_trans (a b c : list Z) :
  lex_compare a b <> Lt -> lex_compare b c <> Lt -> lex_compare a c <> Lt.
Proof.
  revert b c. induction a as [|x a IH]; intros [|y b] [|z c]; simpl;
    try congruence.
  destruct (Z.compare_spec x y), (Z.compare_spec y z), (Z.compare_spec x z);
    try lia; try congruence; subst; eauto.
Qed.

Lemma dt_ge_iff (a b : datetime) :
  dt_ge a b = true <-> lex_compare (fields a) (fields b) <> Lt.
Proof.
  unfold dt_ge. destruct (lex_compare (fields a) (fields b));
    split; congruence.
Qed.

Lemma dt_ge_trans (a b c : datetime) :
  dt_ge a b = true -> dt_ge b c = true -> dt_ge a c = true.
Proof. rewrite !dt_ge_iff. apply lex_compare_trans. Qed.

(** X9. Moving the cutoff later only narrows the selection: selecting
    with a later cutoff from what an earlier cutoff (or none) selected gives
    what the later cutoff selects from the whole listing, so every pull
    request selected with the later cutoff is selected with the earlier
    one. *)
Theorem later_cutoff_narrows_selection
    (pulls : list PullRequest) (since1 : option datetime) (since2 : datetime) :
  cutoff_not_later since1 since2 ->
  get_merged_prs (get_merged_prs pulls since1) (Some since2)
  = get_merged_prs pulls (Some since2)
  /\ incl (get_merged_prs pulls (Some since2)) (get_merged_prs pulls since1).
Proof.
  intros Hle.
  assert (Himp : forall pr,
            merged pr && dt_ge (merged_at pr) since2 = true ->
            merged pr && match since1 with
                         | None => true
                         | Some since => dt_ge (merged_at pr) since
                         end = true).
  { intros pr H. apply andb_true_iff in H as [Hm Hge].
    apply andb_true_iff. split; [exact Hm|].
    destruct since1 as [s1|]; [|reflexivity].
    exact (dt_ge_trans _ _ _ Hge Hle). }
  split.
  - unfold get_merged_prs. induction pulls as [|pr pulls IH]; [reflexivity|].
    cbn [List.filter].
    destruct (merged pr && dt_ge (merged_at pr) since2) eqn:H2.
    + rewrite (Himp pr H2). cbn [List.filter]. rewrite H2. now f_equal.
    + destruct (merged pr && match since1 with
                                | Some since => dt_ge (merged_at pr) since
                                | None => true
                                end);
        [cbn [List.filter]; rewrite H2|]; exact IH.
  - intros pr Hin. unfold get_merged_prs in *.
    apply List.filter_In in Hin as [Hin H2]. apply List.filter_In.
    split; [exact Hin | exact (Himp pr H2)].
Qed.

Lemma later_cutoff_narrows_selection_witness :
  get_merged_prs
    (get_merged_prs [pr_caching; pr_bug_critical; pr_docs]
                    (Some midnight_2024_01_01))
    (Some noon_2024_01_03)
  = get_merged_prs [pr_caching; pr_bug_critical; pr_docs]
                   (Some noon_2024_01_03)
  /\ incl (get_merged_prs [pr_caching; pr_bug_critical; pr_docs]
                          (Some noon_2024_01_03))
          (get_merged_prs [pr_caching; pr_bug_critical; pr_docs]
                          (Some midnight_2024_01_01)).
Proof.
  apply (later_cutoff_narrows_selection
           [pr_caching; pr_bug_critical; pr_docs]
           (Some midnight_2024_01_01) noon_2024_01_03).
  reflexivity.
Defined.

(** ** From one run to the next *)

Lemma date_at_first_digit (c : ascii) (s t : string) :
  Re.date_at (String c s) = Some t -> Re.is_digit c = true.
Proof.
  do 9 (destruct s as [|? s]; [discriminate|]).
  unfold Re.date_at. destruct (Re.is_digit c); [reflexivity | discriminate].
Qed.

Lemma date_at_append (s t y : string) :
  Re.date_at s = Some t -> Re.date_at (s +:+ y) = Some t.
Proof.
  do 10 (destruct s as [|? s]; [discriminate|]). intros H. exact H.
Qed.

(** A match of the date pattern is ten characters long, matches on its
    own and holds no newline. *)
Lemma date_at_token (s t : string) :
  Re.date_at s = Some t ->
  Re.date_at t = Some t
  /\ (exists r, s = t +:+ r)
  /\ ~ In Str.nl_char (chars t).
Proof.
  do 10 (destruct s as [|? s]; [discriminate|]).
  unfold Re.date_at.
  match goal with
  | |- (if ?b then _ else _) = _ -> _ => destruct b eqn:E; [|discriminate]
  end.
  intros [= <-]. cbn [Str.take]. rewrite E. split; [reflexivity|].
  split; [exists s; reflexivity|].
  repeat match goal with
         | H : _ && _ = true |- _ => apply andb_true_iff in H as [H ?]
         end.
  cbn [chars list_ascii_of_string In].
  intros Hin.
  repeat (destruct Hin as [-> | Hin];
          [match goal with
           | H : _ Str.nl_char = true |- _ => vm_compute in H; discriminate H
           | H : Ascii.eqb Str.nl_char _ = true |- _ =>
               vm_compute in H; discriminate H
           end|]).
  exact Hin.
Qed.

Lemma append_split (a b h t : string) :
  a +:+ b = h +:+ t ->
  (exists b', b = b' +:+ t /\ h = a +:+ b')
  \/ (exists a', a = h +:+ a' /\ t = a' +:+ b).
Proof.
  revert h. induction a as [|x a IH]; intros h H.
  - left. exists h. simpl in *. auto.
  - destruct h as [|y h].
    + right. exists (String x a). simpl in *. auto.
    + simpl in H. injection H as -> H.
      destruct (IH h H) as [(b' & -> & ->) | (a' & -> & ->)].
      * left. exists b'. auto.
      * right. exists a'. auto.
Qed.

Lemma date_at_none_nl (x y : string) :
  Re.date_at x = None -> Re.date_at (x +:+ String Str.nl_char y) = None.
Proof.
  intros Hx.
  destruct (Re.date_at (x +:+ String Str.nl_char y)) as [t|] eqn:Hat;
    [exfalso|reflexivity].
  destruct (date_at_token _ _ Hat) as (Ht & [r Hr] & Hfree).
  destruct (append_split _ _ _ _ Hr) as [(b' & Hb & ->) | (a' & -> & _)].
  - destruct b' as [|c b'].
    + rewrite append_nil_r in Ht. congruence.
    + simpl in Hb. injection Hb as <- _. apply Hfree.
      unfold chars. rewrite chars_append. apply in_or_app. right. now left.
  - rewrite (date_at_append _ _ a' Ht) in Hx. discriminate.
Qed.

Lemma findall_dates_nil_suffix (s : string) :
  Re.findall_dates s = [] ->
  forall a b, s = a +:+ b -> Re.date_at b = None.
Proof.
  unfold Re.findall_dates. induction s as [|c s IH]; intros Hnil a b Hs.
  - destruct a; [|discriminate]. simpl in Hs. now subst b.
  - cbn [Re.findall_dates_from] in Hnil.
    destruct (Re.date_at (String c s)) eqn:Hat; [discriminate|].
    destruct a as [|x a]; simpl in Hs; [now subst b|].
    injection Hs as _ Hs. exact (IH Hnil a b Hs).
Qed.

Lemma date_free_before_heading (header rest : string) :
  Re.findall_dates header = [] ->
  DateFree (header +:+ blank_line +:+ Str.nl +:+ "## [") rest.
Proof.
  intros Hfree a b Hab Hb.
  destruct (append_split a b header (blank_line +:+ Str.nl +:+ "## [")
              (eq_sym Hab)) as [(b' & -> & Hh) | (a' & _ & Htail)].
  - rewrite append_assoc.
    apply (date_at_none_nl b').
    exact (findall_dates_nil_suffix header Hfree a b' Hh).
  - destruct b as [|c b]; [congruence|]. cbn [String.append].
    destruct (Re.date_at (String c (b +:+ rest))) as [t|] eqn:Hat;
      [exfalso|reflexivity].
    apply date_at_first_digit in Hat.
    assert (Hin : In c (chars (blank_line +:+ Str.nl +:+ "## [")))
      by (rewrite Htail; unfold chars; rewrite chars_append;
          apply in_or_app; right; now left).
    vm_compute in Hin.
    repeat (destruct Hin as [<- | Hin]; [vm_compute in Hat; discriminate Hat|]).
    exact Hin.
Qed.

(** X10. A run that writes sets the cutoff of the next one: when the
    header, the part of the content before its first blank-line boundary,
    holds no date-shaped text and the current date is a calendar date, the
    first date of the written document is the current date, so the next run
    reads midnight of that day as its cutoff. *)
Theorem next_cutoff_is_the_run_date
    (current_date output_file : string) (pulls : list PullRequest)
    (file : option string) (content header rest : string)
    (cutoff : option datetime) (today : datetime) :
  read_changelog file = Ok (content, cutoff) ->
  get_merged_prs pulls cutoff <> [] ->
  HeaderSplit content header rest ->
  Re.findall_dates header = [] ->
  Re.date_at current_date = Some current_date ->
  strptime current_date = Ok today ->
  exists doc,
    update_changelog current_date output_file pulls file
    = Ok (mk_run (Some doc) (updated output_file))
    /\ read_changelog (Some doc) = Ok (doc, Some today).
Proof.
  intros Hread Hne Hsplit Hfree Hdate Htoday.
  destruct (update_changelog_writes current_date output_file pulls file
              content cutoff Hread Hne) as (d & _ & Hd & ->).
  eexists. split; [reflexivity|].
  rewrite (splice_after_header _ _ _ _ Hsplit). unfold render_section.
  rewrite (render_categories_blocks (get_merged_prs pulls cutoff)) by exact Hd.
  set (blocks := Str.concat _).
  replace ((header +:+ blank_line)
           +:+ ((Str.nl +:+ "## [" +:+ current_date +:+ "]"
                 +:+ Str.nl +:+ Str.nl) +:+ blocks)
           +:+ rest)
    with ((header +:+ blank_line +:+ Str.nl +:+ "## [")
          +:+ current_date
          +:+ ("]" +:+ Str.nl +:+ Str.nl +:+ blocks +:+ rest))
    by (rewrite !append_assoc; reflexivity).
  apply read_changelog_first_date.
  - apply date_free_before_heading, Hfree.
  - now apply date_at_append.
  - exact Htoday.
Qed.

Lemma next_cutoff_is_the_run_date_witness :
  exists doc,
    update_changelog "2024-01-01" "CHANGELOG.md" [pr_bug_critical; pr_docs]
      None
    = Ok (mk_run (Some doc) (updated "CHANGELOG.md"))
    /\ read_changelog (Some doc) = Ok (doc, Some midnight_2024_01_01).
Proof.
  apply (next_cutoff_is_the_run_date "2024-01-01" "CHANGELOG.md"
           [pr_bug_critical; pr_docs] None default_content "# Changelog"
           ("All notable changes to this project will be documented in this file."
            +:+ blank_line) None midnight_2024_01_01).
  - reflexivity.
  - vm_compute. discriminate.
  - exact default_content_split.
  - reflexivity.
  - reflexivity.
  - reflexivity.
Defined.

(** ** The cutoff and the place of a section *)

Lemma no_date_starts_free (pre rest : string) :
  no_date_starts pre rest = true -> DateFree pre rest.
Proof.
  induction pre as [|c pre IH]; intros H a b Hab Hb.
  - destruct a; [|discriminate]. simpl in Hab. congruence.
  - cbn [no_date_starts] in H.
    destruct (Re.date_at (String c pre +:+ rest)) eqn:Hat; [discriminate|].
    destruct a as [|x a]; simpl in Hab.
    + now subst b.
    + injection Hab as _ Hab. exact (IH H a b Hab Hb).
Qed.

(** X12. The cutoff of a run is midnight of the leftmost date-shaped text
    of the file, wherever it stands and whatever dates follow it, and the run
    selects exactly the merged pull requests of the listing that were not
    merged before that moment. *)
Theorem cutoff_is_the_first_date
    (pulls : list PullRequest) (pre tok post : string) (since : datetime) :
  DateFree pre (tok +:+ post) ->
  Re.date_at (tok +:+ post) = Some tok ->
  strptime tok = Ok since ->
  read_changelog (Some (pre +:+ tok +:+ post))
  = Ok (pre +:+ tok +:+ post, Some since)
  /\ forall pr,
       In pr (get_merged_prs pulls (Some since))
       <-> In pr pulls /\ merged pr = true
           /\ dt_lt (merged_at pr) since = false.
Proof.
  intros Hfree Hat Hsince. split.
  - destruct (findall_dates_first pre tok post Hfree Hat) as [more Hall].
    pose proof (read_changelog_cases (pre +:+ tok +:+ post)) as H.
    now rewrite Hall, Hsince in H.
  - intros pr. rewrite get_merged_prs_In. unfold Qualifies. tauto.
Qed.

Lemma cutoff_is_the_first_date_witness :
  read_changelog (Some changelog_since_2020)
  = Ok (changelog_since_2020, Some midnight_2020_05_05)
  /\ forall pr,
       In pr (get_merged_prs [pr_caching; pr_docs] (Some midnight_2020_05_05))
       <-> In pr [pr_caching; pr_docs] /\ merged pr = true
           /\ dt_lt (merged_at pr) midnight_2020_05_05 = false.
Proof.
  apply (cutoff_is_the_first_date [pr_caching; pr_docs]
           ("# Changelog" +:+ blank_line +:+ "Maintained since ")
           "2020-05-05"
           ("." +:+ blank_line
            +:+ "## [2024-01-01]" +:+ blank_line
            +:+ "### 🐛 Bug Fixes" +:+ blank_line
            +:+ "- Fix crash (#3) - @bob" +:+ blank_line)
           midnight_2020_05_05).
  - apply no_date_starts_free. vm_compute. reflexivity.
  - reflexivity.
  - reflexivity.
Defined.

Lemma update_splices_after_header_witness :
  exists categorized_prs,
    group_prs (get_merged_prs [pr_docs; pr_caching] (Some midnight_2024_01_01))
              ∅
    = Ok categorized_prs /\
    update_changelog "2024-01-05" "CHANGELOG.md" [pr_docs; pr_caching]
      (Some changelog_2024_01_01)
    = Ok (mk_run
            (Some (("# Changelog" +:+ blank_line)
                   +:+ render_section "2024-01-05" categorized_prs
                   +:+ "All notable changes to this project will be documented in this file."
                   +:+ blank_line
                   +:+ "## [2024-01-01]" +:+ blank_line
                   +:+ "### 🐛 Bug Fixes" +:+ blank_line
                   +:+ "- Fix crash (#3) - @bob" +:+ blank_line))
            (updated "CHANGELOG.md")).
Proof.
  apply (update_splices_after_header "2024-01-05" "CHANGELOG.md"
           [pr_docs; pr_caching] changelog_2024_01_01 "# Changelog"
           ("All notable changes to this project will be documented in this file."
            +:+ blank_line
            +:+ "## [2024-01-01]" +:+ blank_line
            +:+ "### 🐛 Bug Fixes" +:+ blank_line
            +:+ "- Fix crash (#3) - @bob" +:+ blank_line)
           (Some midnight_2024_01_01)).
  - vm_compute; reflexivity.
  - vm_compute. discriminate.
  - assert (Hi : Str.index_of blank_line changelog_2024_01_01 = Some 11%nat)
      by reflexivity.
    exact (header_split_of_index _ _ Hi).
Defined.

(** ** Two runs in a row *)

(** Whatever is put after the first blank-line boundary, the boundary stays
    the first one. *)
Lemma header_split_kept (content header rest x : string) :
  HeaderSplit content header rest ->
  HeaderSplit ((header +:+ blank_line) +:+ x) header x.
Proof.
  intros [Hdoc Hmin]. split; [apply append_assoc|].
  intros a b E. rewrite append_assoc in E.
  destruct (append_split _ _ _ _ E) as [(b0 & _ & ->) | (a0 & Hh & Ha0)].
  - rewrite length_append. lia.
  - subst header. rewrite length_append.
    destruct a0 as [|c1 [|c2 a2]].
    + simpl. lia.
    + simpl in Ha0. injection Ha0 as <- _.
      pose proof (Hmin a (Str.nl +:+ rest)) as H.
      rewrite length_append in H. apply H.
      rewrite Hdoc, append_assoc. reflexivity.
    + simpl in Ha0. injection Ha0 as <- <- _.
      pose proof (Hmin a (a2 +:+ blank_line +:+ rest)) as H.
      rewrite length_append in H. apply H.
      rewrite Hdoc, append_assoc. reflexivity.
Qed.

(** X13. Sections pile up newest first.  When the content has a
    blank-line boundary, a run that writes puts its section right after the
    first one, and a later run that writes puts its own section at the same
    place, before the section of the earlier run; the header before the
    boundary and everything that came after it are kept as they were. *)
Theorem two_runs_stack_newest_first
    (date1 date2 output_file : string) (pulls1 pulls2 : list PullRequest)
    (file : option string) (content header rest : string)
    (cutoff1 : option datetime) :
  read_changelog file = Ok (content, cutoff1) ->
  get_merged_prs pulls1 cutoff1 <> [] ->
  HeaderSplit content header rest ->
  exists blocks1,
    update_changelog date1 output_file pulls1 file
    = Ok (mk_run (Some ((header +:+ blank_line)
                        +:+ (dated_heading date1 +:+ blocks1) +:+ rest))
                 (updated output_file))
    /\ forall cutoff2,
         read_changelog (Some ((header +:+ blank_line)
                               +:+ (dated_heading date1 +:+ blocks1) +:+ rest))
         = Ok ((header +:+ blank_line)
               +:+ (dated_heading date1 +:+ blocks1) +:+ rest, cutoff2) ->
         get_merged_prs pulls2 cutoff2 <> [] ->
         exists blocks2,
           update_changelog date2 output_file pulls2
             (Some ((header +:+ blank_line)
                    +:+ (dated_heading date1 +:+ blocks1) +:+ rest))
           = Ok (mk_run (Some ((header +:+ blank_line)
                               +:+ (dated_heading date2 +:+ blocks2)
                               +:+ (dated_heading date1 +:+ blocks1)
                               +:+ rest))
                        (updated output_file)).
Proof.
  intros Hread Hne Hsplit.
  destruct (update_changelog_writes date1 output_file pulls1 file
              content cutoff1 Hread Hne) as (d1 & _ & Hd1 & Hw1).
  rewrite (splice_after_header _ _ _ _ Hsplit) in Hw1.
  unfold render_section in Hw1.
  rewrite (render_categories_blocks (get_merged_prs pulls1 cutoff1))
    in Hw1 by exact Hd1.
  eexists. split; [exact Hw1|].
  intros cutoff2 Hread2 Hne2.
  destruct (update_changelog_writes date2 output_file pulls2 _ _ cutoff2
              Hread2 Hne2) as (d2 & _ & Hd2 & Hw2).
  rewrite (splice_after_header _ header _ _
             (header_split_kept _ _ _ _ Hsplit)) in Hw2.
  unfold render_section in Hw2.
  rewrite (render_categories_blocks (get_merged_prs pulls2 cutoff2))
    in Hw2 by exact Hd2.
  eexists. exact Hw2.
Qed.

Lemma two_runs_stack_newest_first_witness :
  exists blocks1,
    update_changelog "2024-01-01" "CHANGELOG.md" [pr_bug_critical; pr_docs] None
    = Ok (mk_run
            (Some (("# Changelog" +:+ blank_line)
                   +:+ (dated_heading "2024-01-01" +:+ blocks1)
                   +:+ "All notable changes to this project will be documented in this file."
                   +:+ blank_line))
            (updated "CHANGELOG.md"))
    /\ forall cutoff2,
         read_changelog
           (Some (("# Changelog" +:+ blank_line)
                  +:+ (dated_heading "2024-01-01" +:+ blocks1)
                  +:+ "All notable changes to this project will be documented in this file."
                  +:+ blank_line))
         = Ok (("# Changelog" +:+ blank_line)
               +:+ (dated_heading "2024-01-01" +:+ blocks1)
               +:+ "All notable changes to this project will be documented in this file."
               +:+ blank_line, cutoff2) ->
         get_merged_prs [pr_caching] cutoff2 <> [] ->
         exists blocks2,
           update_changelog "2024-01-05" "CHANGELOG.md" [pr_caching]
             (Some (("# Changelog" +:+ blank_line)
                    +:+ (dated_heading "2024-01-01" +:+ blocks1)
                    +:+ "All notable changes to this project will be documented in this file."
                    +:+ blank_line))
           = Ok (mk_run
                   (Some (("# Changelog" +:+ blank_line)
                          +:+ (dated_heading "2024-01-05" +:+ blocks2)
                          +:+ (dated_heading "2024-01-01" +:+ blocks1)
                          +:+ "All notable changes to this project will be documented in this file."
                          +:+ blank_line))
                   (updated "CHANGELOG.md")).
Proof.
  apply (two_runs_stack_newest_first "2024-01-01" "2024-01-05" "CHANGELOG.md"
           [pr_bug_critical; pr_docs] [pr_caching] None default_content
           "# Changelog"
           ("All notable changes to this project will be documented in this file."
            +:+ blank_line)
           None).
  - reflexivity.
  - vm_compute. discriminate.
  - exact default_content_split.
Defined.
